(** * open-sandboxes: remote sandboxed execution of Python snippets

    A shallow embedding of the three modules of the package

    - [open_sandboxes/uv_config/config_pyproject.py] ([PyprojectConfig]),
    - [open_sandboxes/ssh_connection/base.py] ([SSHConnection]),
    - [open_sandboxes/sandbox.py] ([Sandbox]),

    followed by the properties of the assembled [docker run] command, of the
    constructors' validation and of the connection life cycle.

    Python [str] values are modelled by [string]: a sequence of 8-bit
    characters (the UTF-8 encoding of the text).  The only character the
    code inspects is the ASCII single quote, which never occurs inside a
    multi-byte sequence, so the model is exact for the operations used. *)

From Stdlib Require Import Bool List String Ascii ZArith Lia.
From Stdlib Require Import Numbers.DecimalString.
Import ListNotations.
Local Open Scope list_scope.
Local Open Scope bool_scope.
Local Open Scope string_scope.

(* ===================================================================== *)
(** ** Python builtins used by the package                                *)
(* ===================================================================== *)

Module Py.

(** The characters that cannot be written inside a string literal. *)
Definition nl : string := String "010"%char "".
Definition dq : string := String "034"%char "".

(** [sub in s]. *)
Fixpoint contains (sub s : string) : bool :=
  prefix sub s
  || match s with
     | "" => false
     | String _ rest => contains sub rest
     end.

(** [s.replace(old, new)] for a non-empty [old]: occurrences are found
    from the left and do not overlap.  [skip] counts the characters of the
    occurrence just replaced that are still to be dropped. *)
Fixpoint replace_from (skip : nat) (old new s : string) : string :=
  match s with
  | "" => ""
  | String c rest =>
      match skip with
      | S k => replace_from k old new rest
      | O =>
          if prefix old s
          then new ++ replace_from (String.length old - 1) old new rest
          else String c (replace_from 0 old new rest)
      end
  end.

(** [s.replace(old, new)]; with an empty [old], Python inserts [new]
    before every character and at the end. *)
Definition replace (s old new : string) : string :=
  match old with
  | "" => new ++ String.concat new
            (map (fun c => String c "") (list_ascii_of_string s)) ++
          match s with "" => "" | _ => new end
  | _ => replace_from 0 old new s
  end.

(** [c in chars], for the character sets given to [strip]. *)
Fixpoint mem (c : ascii) (chars : string) : bool :=
  match chars with
  | "" => false
  | String d rest => Ascii.eqb c d || mem c rest
  end.

(** [s.lstrip(chars)]. *)
Fixpoint lstrip (s chars : string) : string :=
  match s with
  | "" => ""
  | String c rest => if mem c chars then lstrip rest chars else s
  end.

(** [s.rstrip(chars)]: a character is dropped when it is in [chars] and
    everything to its right has been dropped. *)
Fixpoint rstrip (s chars : string) : string :=
  match s with
  | "" => ""
  | String c rest =>
      match rstrip rest chars with
      | "" => if mem c chars then "" else String c ""
      | kept => String c kept
      end
  end.

(** [s.strip(chars)]. *)
Definition strip (s chars : string) : string :=
  rstrip (lstrip s chars) chars.

(** [sep.join(parts)]. *)
Definition join (sep : string) (parts : list string) : string :=
  String.concat sep parts.

(** [str(n)] for an [int]. *)
Definition str_int (n : Z) : string :=
  NilZero.string_of_int (Z.to_int n).

(** [x or default]: the default replaces [None] and every value whose
    truth value is false. *)
Definition or_default {A : Type} (truth : A -> bool)
    (x : option A) (default : A) : A :=
  match x with
  | Some v => if truth v then v else default
  | None => default
  end.

Definition bool_of_int (n : Z) : bool := negb (n =? 0)%Z.
Definition bool_of_str (s : string) : bool :=
  match s with "" => false | _ => true end.

(** Python's [float] is not modelled bit by bit: the package only asks a
    float for its truth value ([x or 1]) and for its text ([f"{x}"]). *)
Class Float : Type := {
  float : Type;
  bool_of_float : float -> bool;
  str_float : float -> string
}.

(** A number passed where the signature says [float]: an [int] is
    accepted there too, and the default [1] is one. *)
Inductive number `{Float} : Type :=
| Int (n : Z)
| Flt (x : float).

Definition bool_of_number `{Float} (x : number) : bool :=
  match x with
  | Int n => bool_of_int n
  | Flt f => bool_of_float f
  end.

Definition str_number `{Float} (x : number) : string :=
  match x with
  | Int n => str_int n
  | Flt f => str_float f
  end.

(** The values of an environment mapping ([dict[str, Any]]). *)
Inductive value `{Float} : Type :=
| VStr (s : string)
| VNum (x : number)
| VBool (b : bool)
| VNone.

(** [f"{v}"], that is [str(v)]. *)
Definition str_value `{Float} (v : value) : string :=
  match v with
  | VStr s => s
  | VNum x => str_number x
  | VBool true => "True"
  | VBool false => "False"
  | VNone => "None"
  end.

(** Exceptions.  [ValueError] is what the constructors raise; everything
    raised by the libraries underneath (paramiko, sockets, codecs, the
    file system) is a [LibraryError] with the exception's name. *)
Inductive exn : Type :=
| ValueError (msg : string)
| LibraryError (name : string).

Definition result (A : Type) : Type := (exn + A)%type.

End Py.

(* ===================================================================== *)
(** ** The remote shell's reading of one word                             *)
(* ===================================================================== *)

(** The command assembled by [Sandbox.run_code] is parsed by the login
    shell of the remote host.  This is the fragment of the POSIX shell's
    token recognition that decides where the argument of [/bin/sh -c]
    ends and what it contains: single quotes, backslash outside quotes,
    and the characters that end a word. *)
Module Shell.

Inductive quoting : Type :=
| Unquoted          (* outside quotes *)
| InSingle          (* between two single quotes *)
| Escaped.          (* just after a backslash outside quotes *)

Inductive lexed : Type :=
| Word (text rest : string)   (* the word, and the input after it *)
| Unterminated                (* input ended inside quotes *)
| Unsupported.                (* an expansion or pattern character outside quotes *)

Definition push (c : ascii) (r : lexed) : lexed :=
  match r with
  | Word text rest => Word (String c text) rest
  | other => other
  end.

Fixpoint push_all (s : string) (r : lexed) : lexed :=
  match s with
  | "" => r
  | String c s' => push c (push_all s' r)
  end.

(** Blanks, newline and the operator characters end a word. *)
Definition ends_word (c : ascii) : bool :=
  Py.mem c (String " "%char (String "009"%char (String "010"%char "|&;<>()"))).

(** Characters that start an expansion or a double-quoted part, and the
    pattern characters: what they stand for is not modelled. *)
Definition expands (c : ascii) : bool :=
  Py.mem c (String "034"%char "$`*?[").

Fixpoint word (q : quoting) (input : string) : lexed :=
  match input with
  | "" => match q with Unquoted => Word "" "" | _ => Unterminated end
  | String c rest =>
      match q with
      | InSingle =>
          if Ascii.eqb c "'" then word Unquoted rest
          else push c (word InSingle rest)
      | Escaped =>
          if Ascii.eqb c "010" then word Unquoted rest
          else push c (word Unquoted rest)
      | Unquoted =>
          if Ascii.eqb c "'" then word InSingle rest
          else if Ascii.eqb c "\" then word Escaped rest
          else if ends_word c then Word "" input
          else if expands c then Unsupported
          else push c (word Unquoted rest)
      end
  end.

End Shell.

(* ===================================================================== *)
(** ** uv_config/config_pyproject.py                                      *)
(* ===================================================================== *)

Module PyprojectConfig.

(** [PyprojectDependency]: a typed dictionary with two keys. *)
Record PyprojectDependency : Type := {
  name : string;
  version_constraints : string
}.

Record t : Type := {
  dependencies : list PyprojectDependency;
  title : string;
  python_min_version : string;
  python_max_version : string
}.

(** The dataclass defaults. *)
Definition make (deps : list PyprojectDependency) : t :=
  {| dependencies := deps;
     title := "my-project";
     python_min_version := "3.13";
     python_max_version := "4" |}.

(** One turn of the loop of [to_str]. *)
Definition add_dependency (deps : string) (dependency : PyprojectDependency) : string :=
  let deps := deps ++ "    " ++ Py.dq ++ name dependency ++
              version_constraints dependency ++ Py.dq ++ "," ++ Py.nl in
  Py.strip deps ("," ++ Py.nl).

Definition to_str (self : t) : string :=
  let deps := fold_left add_dependency (dependencies self) "" in
  Py.nl ++
  "[project]" ++ Py.nl ++
  "name = " ++ Py.dq ++ title self ++ Py.dq ++ Py.nl ++
  "version = " ++ Py.dq ++ "0.1.0" ++ Py.dq ++ Py.nl ++
  "description = " ++ Py.dq ++ "Add your description here" ++ Py.dq ++ Py.nl ++
  "requires-python = " ++ Py.dq ++ ">=" ++ python_min_version self ++
    ",<" ++ python_max_version self ++ Py.dq ++ Py.nl ++
  "dependencies = [" ++ Py.nl ++
  "    " ++ deps ++ Py.nl ++
  "]" ++ Py.nl.

End PyprojectConfig.

(* ===================================================================== *)
(** ** The SSH client library, as the package sees it                     *)
(* ===================================================================== *)

(** [paramiko.SSHClient] is outside the package.  A client object is
    modelled by the calls made on it so far, oldest first; what the network
    and the remote host answer is a function of that history. *)
Module Paramiko.

Section Client.
Context `{Py.Float}.

Definition bytes : Type := list Byte.byte.

(** Keyword arguments of [SSHClient.connect]. *)
Record connect_kwargs : Type := {
  hostname : string;
  port : Z;
  username : string;
  password : option string;
  passphrase : option string;
  key_filename : option string
}.

Inductive call : Type :=
| set_missing_host_key_policy
| connect (kwargs : connect_kwargs)
| exec_command (command : string) (timeout : option Py.number).

Definition SSHClient : Type := list call.

(** The two channel files returned by [exec_command], each read once
    to its end. *)
Record channels : Type := {
  stdout_read : Py.result bytes;
  stderr_read : Py.result bytes
}.

(** The world outside: whether a [connect] succeeds ([None]) or raises,
    what an [exec_command] yields, and [bytes.decode]. *)
Class Remote : Type := {
  connect_result : SSHClient -> connect_kwargs -> option Py.exn;
  exec_result : SSHClient -> string -> option Py.number -> Py.result channels;
  decode : bytes -> Py.result string
}.
End Client.

End Paramiko.

(* ===================================================================== *)
(** ** ssh_connection/base.py                                             *)
(* ===================================================================== *)

Module SSHConnection.
Import Py.

Section Transport.
Context `{Py.Float} `{!Paramiko.Remote}.

Record t : Type := {
  key_file : option string;
  password : string;
  _is_passphrase : bool;
  host : string;
  port : Z;
  username : string;
  _client : Paramiko.SSHClient;
  _is_connected : bool
}.

(** [ExecCommandResponse]. *)
Record ExecCommandResponse : Type := {
  stderr : string;
  stdout : string
}.

(** [SSHConnection.__init__]. *)
Definition init (host : string) (port : Z) (username : string)
    (password passphrase key_file : option string) : Py.result t :=
  let new (key_file : option string) (password : string) (is_passphrase : bool) :=
    {| key_file := key_file;
       password := password;
       _is_passphrase := is_passphrase;
       host := host;
       port := port;
       username := username;
       _client := [];
       _is_connected := false |} in
  match password, passphrase with
  | None, None =>
      inl (ValueError "You must provide one of password and passphrase")
  | Some pw, None => inr (new None pw false)
  | _, Some phrase =>
      match key_file with
      | None =>
          match password with
          | Some pw => inr (new None pw false)
          | None =>
              inl (ValueError
                "If you provide a passhprase, you must also provide the file where the private key is stored")
          end
      | Some file => inr (new (Some file) phrase true)
      end
  end.

(** Methods run on the object and may raise: the object after the call,
    and the outcome. *)
Definition method (A : Type) : Type := t -> t * Py.result A.

Definition call_client (c : Paramiko.call) (self : t) : t :=
  {| key_file := key_file self;
     password := password self;
     _is_passphrase := _is_passphrase self;
     host := host self;
     port := port self;
     username := username self;
     _client := (_client self ++ [c])%list;
     _is_connected := _is_connected self |}.

Definition set_is_connected (b : bool) (self : t) : t :=
  {| key_file := key_file self;
     password := password self;
     _is_passphrase := _is_passphrase self;
     host := host self;
     port := port self;
     username := username self;
     _client := _client self;
     _is_connected := b |}.

(** The keyword arguments [_connect] passes in each mode. *)
Definition connect_kwargs (self : t) : Paramiko.connect_kwargs :=
  if _is_passphrase self then
    {| Paramiko.hostname := host self;
       Paramiko.port := port self;
       Paramiko.username := username self;
       Paramiko.password := None;
       Paramiko.passphrase := Some (password self);
       Paramiko.key_filename := key_file self |}
  else
    {| Paramiko.hostname := host self;
       Paramiko.port := port self;
       Paramiko.username := username self;
       Paramiko.password := Some (password self);
       Paramiko.passphrase := None;
       Paramiko.key_filename := None |}.

(** [SSHConnection._connect]. *)
Definition _connect : method unit := fun self =>
  let self := call_client Paramiko.set_missing_host_key_policy self in
  let kwargs := connect_kwargs self in
  let outcome := Paramiko.connect_result (_client self) kwargs in
  let self := call_client (Paramiko.connect kwargs) self in
  match outcome with
  | Some e => (self, inl e)
  | None => (set_is_connected true self, inr tt)
  end.

(** [stdout.read().decode()]. *)
Definition read_decode (read : Py.result Paramiko.bytes) : Py.result string :=
  match read with
  | inl e => inl e
  | inr raw => Paramiko.decode raw
  end.

(** [SSHConnection.execute_command]. *)
Definition execute_command (command : string) (timeout : option Py.number)
    : method ExecCommandResponse := fun self =>
  let (self, connected) :=
    if negb (_is_connected self) then _connect self else (self, inr tt) in
  match connected with
  | inl e => (self, inl e)
  | inr _ =>
      let outcome := Paramiko.exec_result (_client self) command timeout in
      let self := call_client (Paramiko.exec_command command timeout) self in
      (self,
       match outcome with
       | inl e => inl e
       | inr files =>
           match read_decode (Paramiko.stdout_read files) with
           | inl e => inl e
           | inr output =>
               match read_decode (Paramiko.stderr_read files) with
               | inl e => inl e
               | inr error => inr {| stderr := error; stdout := output |}
               end
           end
       end)
  end.

(** A caller making one call after the other on the same object,
    catching what each raises. *)
Fixpoint execute_all (calls : list (string * option Py.number)) (self : t)
    : t * list (Py.result ExecCommandResponse) :=
  match calls with
  | [] => (self, [])
  | (command, timeout) :: later =>
      let (self, r) := execute_command command timeout self in
      let (self, rs) := execute_all later self in
      (self, r :: rs)
  end.

(** The number of [connect] calls in a history that established a
    session; [past] is what came before the history. *)
Fixpoint established (past history : Paramiko.SSHClient) : nat :=
  match history with
  | [] => 0
  | c :: later =>
      (match c with
       | Paramiko.connect kwargs =>
           match Paramiko.connect_result past kwargs with
           | None => 1
           | Some _ => 0
           end
       | _ => 0
       end + established (past ++ [c])%list later)%nat
  end.

(** The [connect] calls of a history, successful or not. *)
Definition is_connect (c : Paramiko.call) : bool :=
  match c with Paramiko.connect _ => true | _ => false end.

End Transport.

End SSHConnection.

(* ===================================================================== *)
(** ** sandbox.py                                                         *)
(* ===================================================================== *)

Module Sandbox.
Import Py.

(** The local file system as [Sandbox.__init__] consults it, and the
    calls it makes on it. *)
Class FileSystem : Type := {
  path_exists : string -> bool;               (* Path(p).exists() *)
  path_is_file : string -> bool;              (* Path(p).is_file() *)
  read_text : string -> Py.result string      (* open(p, "r") ... f.read() *)
}.

Inductive fs_call : Type :=
| Exists (path : string)
| IsFile (path : string)
| OpenRead (path : string).

Definition fs_call_eq_dec (a b : fs_call) : {a = b} + {a <> b}.
Proof. decide equality; apply string_dec. Defined.

Section Orchestrator.
Context `{Py.Float} `{!Paramiko.Remote} `{FileSystem}.

Record t : Type := {
  pyproject : string;
  name : string;
  remote_connection : SSHConnection.t
}.

(** [CodeOutput]. *)
Record CodeOutput : Type := {
  output : string;
  error : string
}.

(** [Sandbox.__init__]: the file-system calls made, in order, and the
    outcome. *)
Definition init (name : string) (remote_connection : SSHConnection.t)
    (config : option PyprojectConfig.t) (pyproject_file_path : option string)
    : list fs_call * Py.result t :=
  let new (pyproject : string) :=
    {| pyproject := pyproject;
       name := name;
       remote_connection := remote_connection |} in
  match config, pyproject_file_path with
  | None, None =>
      ([], inl (ValueError
        "You need to provide either a configuration or the path to a pyproject file"))
  | Some _, Some _ =>
      ([], inl (ValueError
        "You can provide either a configuration or the path to a pyproject file, not both"))
  | Some config, None => ([], inr (new (PyprojectConfig.to_str config)))
  | None, Some path =>
      let invalid :=
        inl (ValueError "The provided path either does not exist or is not a file") in
      if negb (path_exists path) then ([Exists path], invalid)
      else if negb (path_is_file path) then ([Exists path; IsFile path], invalid)
      else
        ([Exists path; IsFile path; OpenRead path],
         match read_text path with
         | inl e => inl e
         | inr content => inr (new content)
         end)
  end.

(** [Sandbox.from_connection_args]. *)
Definition from_connection_args (name host : string) (port : Z) (username : string)
    (password passphrase key_file : option string)
    (config : option PyprojectConfig.t) (pyproject_file_path : option string)
    : list fs_call * Py.result t :=
  match SSHConnection.init host port username password passphrase key_file with
  | inl e => ([], inl e)
  | inr conn => init name conn config pyproject_file_path
  end.

(** An environment mapping: a [dict] in its iteration order. *)
Definition environ : Type := list (string * Py.value).

(** [Sandbox._get_env_exports]. *)
Definition _get_env_exports (environment : environ) : string :=
  let exports :=
    map (fun '(k, v) => "export " ++ k ++ "='" ++ str_value v ++ "'") environment in
  join " && " exports.

(** [if environment:] is false for [None] and for the empty mapping. *)
Definition bool_of_environment (environment : option environ) : bool :=
  match environment with
  | Some (_ :: _) => true
  | _ => false
  end.

(** The resource options of [run_code]. *)
Record limits : Type := {
  cpus : option Py.number;
  memory : option Z;
  processes : option Z;
  read_rate : option string;
  write_rate : option string
}.

Definition no_limits : limits :=
  {| cpus := None; memory := None; processes := None;
     read_rate := None; write_rate := None |}.

(** The first five assignments of [run_code] (lines 139 to 143). *)
Definition cpu_limit (opts : limits) : Py.number :=
  or_default bool_of_number (cpus opts) (Int 1).
Definition memory_limit (opts : limits) : Z :=
  or_default bool_of_int (memory opts) 512%Z.
Definition processes_limit (opts : limits) : Z :=
  or_default bool_of_int (processes opts) 100%Z.
Definition read_rate_limit (opts : limits) : string :=
  or_default bool_of_str (read_rate opts) "10mb".
Definition write_rate_limit (opts : limits) : string :=
  or_default bool_of_str (write_rate opts) "10mb".

(** The local variable [command] of [run_code] (lines 144 to 171).  In
    the source's string literals a backslash at the end of a line joins
    the next line: an ampersand pair, a blank and a backslash before a
    line break leave the ampersand pair and the blank. *)
Definition command (self : t) (code : string)
    (environment : option environ) (opts : limits) : string :=
  let cpu_limit := cpu_limit opts in
  let memory_limit := memory_limit opts in
  let processes_limit := processes_limit opts in
  let read_rate_limit := read_rate_limit opts in
  let write_rate_limit := write_rate_limit opts in
  let pyproject_escaped := replace (pyproject self) "'" "'\''" in
  let code_escaped := replace code "'" "'\''" in
  if bool_of_environment environment then
    let exports :=
      _get_env_exports (match environment with Some e => e | None => [] end) in
    "docker run --pids-limit " ++ str_int processes_limit ++
    " --cpus " ++ str_number cpu_limit ++
    " -m " ++ str_int memory_limit ++
    "m --device-read-bps=/dev/sda:" ++ read_rate_limit ++
    " --device-write-bps=/dev/sda:" ++ write_rate_limit ++
    " --rm ghcr.io/astral-sh/uv:alpine /bin/sh -c '" ++ nl ++
    exports ++ " && mkdir -p /tmp/" ++ name self ++
    " && cat > /tmp/" ++ name self ++ "/pyproject.toml << " ++ dq ++ "EOF" ++ dq ++ nl ++
    pyproject_escaped ++ nl ++
    "EOF" ++ nl ++
    "cat > /tmp/" ++ name self ++ "/script.py << " ++ dq ++ "EOF" ++ dq ++ nl ++
    code_escaped ++ nl ++
    "EOF" ++ nl ++
    "cd /tmp/" ++ name self ++ "/ && uv run script.py" ++ nl ++
    "'"
  else
    "docker run --pids-limit " ++ str_int processes_limit ++
    " --cpus " ++ str_number cpu_limit ++
    " -m " ++ str_int memory_limit ++
    "m --device-read-bps=/dev/sda:" ++ read_rate_limit ++
    " --device-write-bps=/dev/sda:" ++ write_rate_limit ++
    " --rm ghcr.io/astral-sh/uv:alpine /bin/sh -c '" ++ nl ++
    "mkdir -p /tmp/" ++ name self ++
    " && cat > /tmp/" ++ name self ++ "/pyproject.toml << " ++ dq ++ "EOF" ++ dq ++ nl ++
    pyproject_escaped ++ nl ++
    "EOF" ++ nl ++
    "cat > /tmp/" ++ name self ++ "/script.py << " ++ dq ++ "EOF" ++ dq ++ nl ++
    code_escaped ++ nl ++
    "EOF" ++ nl ++
    "cd /tmp/" ++ name self ++ "/ && uv run script.py" ++ nl ++
    "'".

Definition set_remote_connection (conn : SSHConnection.t) (self : t) : t :=
  {| pyproject := pyproject self;
     name := name self;
     remote_connection := conn |}.

(** [Sandbox.run_code]: the sandbox after the call (its connection
    object has been used) and the outcome. *)
Definition run_code (self : t) (code : string) (timeout : option Py.number)
    (environment : option environ) (opts : limits) : t * Py.result CodeOutput :=
  let command := command self code environment opts in
  let (conn, result) :=
    SSHConnection.execute_command command timeout (remote_connection self) in
  (set_remote_connection conn self,
   match result with
   | inl e => inl e
   | inr result =>
       inr {| output := SSHConnection.stdout result;
              error := SSHConnection.stderr result |}
   end).

End Orchestrator.

End Sandbox.

(* ===================================================================== *)
(** ** A sample of Python's floats, for concrete runs                     *)
(* ===================================================================== *)

(** The non-negative multiples of one tenth below ten thousand, given by
    their number of tenths: [15] is [1.5], whose text is ["1.5"]. *)
Module Tenths.

Definition str (n : Z) : string :=
  Py.str_int (n / 10) ++ "." ++ Py.str_int (n mod 10).

Definition Float : Py.Float :=
  {| Py.float := Z;
     Py.bool_of_float := Py.bool_of_int;
     Py.str_float := str |}.

End Tenths.

(* ===================================================================== *)
(** ** Vocabulary of the statements                                       *)
(* ===================================================================== *)

Module Spec.
Import Py.

(** Every occurrence of the character [c] replaced by [new]. *)
Fixpoint substitute (c : ascii) (new s : string) : string :=
  match s with
  | "" => ""
  | String d rest =>
      (if Ascii.eqb d c then new else String d "") ++ substitute c new rest
  end.

(** A single quote becomes: closing quote, backslash, quote, opening
    quote. *)
Definition escape (s : string) : string := substitute "'" "'\''" s.

(** The [docker run] invocation up to the argument of [/bin/sh -c], with
    the text standing at each of the five flags. *)
Definition docker_run (pids cpus memory read_bps write_bps : string) : string :=
  "docker run --pids-limit " ++ pids ++
  " --cpus " ++ cpus ++
  " -m " ++ memory ++
  "m --device-read-bps=/dev/sda:" ++ read_bps ++
  " --device-write-bps=/dev/sda:" ++ write_bps ++
  " --rm ghcr.io/astral-sh/uv:alpine /bin/sh -c ".

(** The text between the outer single quotes: the script handed to the
    container's shell.  [exports] is empty or ends with the connective. *)
Definition script (name exports pyproject code : string) : string :=
  nl ++ exports ++ "mkdir -p /tmp/" ++ name ++
  " && cat > /tmp/" ++ name ++ "/pyproject.toml << " ++ dq ++ "EOF" ++ dq ++ nl ++
  pyproject ++ nl ++
  "EOF" ++ nl ++
  "cat > /tmp/" ++ name ++ "/script.py << " ++ dq ++ "EOF" ++ dq ++ nl ++
  code ++ nl ++
  "EOF" ++ nl ++
  "cd /tmp/" ++ name ++ "/ && uv run script.py" ++ nl.

Section Exports.
Context `{Py.Float}.

(** One assignment of the export segment. *)
Definition export_of (entry : string * Py.value) : string :=
  "export " ++ fst entry ++ "='" ++ str_value (snd entry) ++ "'".

(** The export segment with its trailing connective, or nothing. *)
Definition exports_line (environment : option Sandbox.environ) : string :=
  match environment with
  | Some (entry :: entries) =>
      join " && " (map export_of (entry :: entries)) ++ " && "
  | _ => ""
  end.

(** The five flag texts of a call. *)
Definition flags (opts : Sandbox.limits) : string :=
  docker_run (str_int (Sandbox.processes_limit opts))
             (str_number (Sandbox.cpu_limit opts))
             (str_int (Sandbox.memory_limit opts))
             (Sandbox.read_rate_limit opts)
             (Sandbox.write_rate_limit opts).
End Exports.

(** A template: a first literal, then holes each followed by a literal. *)
Fixpoint fill (first : string) (rest : list (string * string)) : string :=
  match rest with
  | [] => first
  | (hole, literal) :: rest => first ++ hole ++ fill literal rest
  end.

Definition starts_foreign (p s : string) : bool :=
  match s with
  | "" => false
  | String c _ => negb (Py.mem c p)
  end.

Fixpoint ends_foreign (p s : string) : bool :=
  match s with
  | "" => false
  | String c "" => negb (Py.mem c p)
  | String _ rest => ends_foreign p rest
  end.

Definition fenced (p s : string) : bool := starts_foreign p s && ends_foreign p s.

(** One entry of the dependency array of a manifest. *)
Definition dependency_entry (d : PyprojectConfig.PyprojectDependency) : string :=
  "    " ++ dq ++ PyprojectConfig.name d ++
  PyprojectConfig.version_constraints d ++ dq.

(** Decimal digits. *)
Definition is_digit (c : ascii) : bool := mem c "0123456789".

Fixpoint all_chars (p : ascii -> bool) (s : string) : bool :=
  match s with
  | "" => true
  | String c rest => p c && all_chars p rest
  end.

End Spec.

(* ===================================================================== *)
(** ** A concrete world, for the runs below                               *)
(* ===================================================================== *)

Module Demo.

#[local] Existing Instance Tenths.Float.

(** Decoding restricted to ASCII: any byte above 127 is refused. *)
Definition decode_ascii (raw : Paramiko.bytes) : Py.result string :=
  if forallb (fun b => (Byte.to_nat b <? 128)%nat) raw
  then inr (string_of_list_byte raw)
  else inl (Py.LibraryError "UnicodeDecodeError").

(** A host that accepts every connection and whose commands all print a
    greeting and nothing on the error stream. *)
Definition friendly : Paramiko.Remote :=
  {| Paramiko.connect_result := fun _ _ => None;
     Paramiko.exec_result := fun _ _ _ =>
       inr {| Paramiko.stdout_read := inr (list_byte_of_string "hello world!");
              Paramiko.stderr_read := inr [] |};
     Paramiko.decode := decode_ascii |}.

(** A host that refuses the first connection and accepts the next. *)
Definition flaky : Paramiko.Remote :=
  {| Paramiko.connect_result := fun history _ =>
       if existsb SSHConnection.is_connect history then None
       else Some (Py.LibraryError "AuthenticationException");
     Paramiko.exec_result := fun _ _ _ =>
       inr {| Paramiko.stdout_read := inr []; Paramiko.stderr_read := inr [] |};
     Paramiko.decode := decode_ascii |}.

(** A file system with one manifest file and one directory. *)
Definition disk : Sandbox.FileSystem :=
  {| Sandbox.path_exists := fun p =>
       String.eqb p "testfiles/custom.pyproject.toml" || String.eqb p "testfiles";
     Sandbox.path_is_file := fun p => String.eqb p "testfiles/custom.pyproject.toml";
     Sandbox.read_text := fun p =>
       if String.eqb p "testfiles/custom.pyproject.toml"
       then inr "[project]"
       else inl (Py.LibraryError "FileNotFoundError") |}.

Definition conn : SSHConnection.t :=
  {| SSHConnection.key_file := None;
     SSHConnection.password := "test";
     SSHConnection._is_passphrase := false;
     SSHConnection.host := "0.0.0.0";
     SSHConnection.port := 22;
     SSHConnection.username := "test";
     SSHConnection._client := [];
     SSHConnection._is_connected := false |}.

Definition sandbox : Sandbox.t :=
  {| Sandbox.pyproject := "[project]";
     Sandbox.name := "sandbox-1";
     Sandbox.remote_connection := conn |}.

(** The options of the package's own test of [run_code]. *)
Definition test_environment : Sandbox.environ :=
  [("OPENAI_API_KEY", Py.VStr "test-key"); ("PYTHONBUFFERED", Py.VStr "1")].

Definition test_limits : Sandbox.limits :=
  {| Sandbox.cpus := Some (Py.Flt (15 : Z));
     Sandbox.memory := Some 100%Z;
     Sandbox.processes := Some 10%Z;
     Sandbox.read_rate := Some "1mb";
     Sandbox.write_rate := Some "2mb" |}.

End Demo.

(* ===================================================================== *)
(** ** tests/test_sandbox.py                                              *)
(* ===================================================================== *)

(** The stand-in for [Sandbox.run_code] used by the package's test of the
    options: it builds the command on its own, for a sandbox and a manifest
    both called [hello], and returns it as the output. *)
Module TestSandbox.
Import Py.

Section Mock.
Context `{Py.Float}.

(** [_get_env_exports] of the test module. *)
Definition _get_env_exports (environment : Sandbox.environ) : string :=
  let exports :=
    map (fun '(k, v) => "export " ++ k ++ "='" ++ str_value v ++ "'") environment in
  join " && " exports.

(** [mock_run_code]. *)
Definition mock_run_code (code : string) (timeout : option Py.number)
    (environment : option Sandbox.environ) (opts : Sandbox.limits)
    : Sandbox.CodeOutput :=
  let cpu_limit := or_default bool_of_number (Sandbox.cpus opts) (Int 1) in
  let memory_limit := or_default bool_of_int (Sandbox.memory opts) 512%Z in
  let processes_limit := or_default bool_of_int (Sandbox.processes opts) 100%Z in
  let read_rate_limit := or_default bool_of_str (Sandbox.read_rate opts) "10mb" in
  let write_rate_limit := or_default bool_of_str (Sandbox.write_rate opts) "10mb" in
  let pyproject_escaped := "hello" in
  let code_escaped := replace code "'" "'\''" in
  let command :=
    if Sandbox.bool_of_environment environment then
      let exports :=
        _get_env_exports (match environment with Some e => e | None => [] end) in
      "docker run --pids-limit " ++ str_int processes_limit ++
      " --cpus " ++ str_number cpu_limit ++
      " -m " ++ str_int memory_limit ++
      "m --device-read-bps=/dev/sda:" ++ read_rate_limit ++
      " --device-write-bps=/dev/sda:" ++ write_rate_limit ++
      " --rm ghcr.io/astral-sh/uv:alpine /bin/sh -c '" ++ nl ++
      exports ++ " && mkdir -p /tmp/hello" ++
      " && cat > /tmp/hello/pyproject.toml << " ++ dq ++ "EOF" ++ dq ++ nl ++
      pyproject_escaped ++ nl ++
      "EOF" ++ nl ++
      "cat > /tmp/hello/script.py << " ++ dq ++ "EOF" ++ dq ++ nl ++
      code_escaped ++ nl ++
      "EOF" ++ nl ++
      "cd /tmp/hello/ && uv run script.py" ++ nl ++
      "'"
    else
      "docker run --pids-limit " ++ str_int processes_limit ++
      " --cpus " ++ str_number cpu_limit ++
      " -m " ++ str_int memory_limit ++
      "m --device-read-bps=/dev/sda:" ++ read_rate_limit ++
      " --device-write-bps=/dev/sda:" ++ write_rate_limit ++
      " --rm ghcr.io/astral-sh/uv:alpine /bin/sh -c '" ++ nl ++
      "mkdir -p /tmp/hello" ++
      " && cat > /tmp/hello/pyproject.toml << " ++ dq ++ "EOF" ++ dq ++ nl ++
      pyproject_escaped ++ nl ++
      "EOF" ++ nl ++
      "cat > /tmp/hello/script.py << " ++ dq ++ "EOF" ++ dq ++ nl ++
      code_escaped ++ nl ++
      "EOF" ++ nl ++
      "cd /tmp/hello/ && uv run script.py" ++ nl ++
      "'" in
  {| Sandbox.output := command; Sandbox.error := "" |}.

End Mock.

End TestSandbox.

(* ===================================================================== *)
(** ** The container shell's reading of a here-document                   *)
(* ===================================================================== *)

(** The script writes the manifest and the code with here-documents whose
    delimiter is quoted: the shell takes the lines that follow literally,
    up to the first line that is the delimiter. *)
Module Heredoc.

Fixpoint drop (n : nat) (s : string) : string :=
  match n, s with
  | O, _ => s
  | S _, "" => ""
  | S k, String _ rest => drop k rest
  end.

(** [input] begins with the delimiter's line. *)
Definition at_delimiter (delimiter input : string) : bool :=
  prefix (delimiter ++ Py.nl) input.

(** The text of the document and the input after the delimiter's line;
    [line_start] says whether [input] begins a line.  Nothing is returned
    when the input ends before the delimiter. *)
Fixpoint body (delimiter : string) (line_start : bool) (input : string)
    : option (string * string) :=
  match input with
  | "" => None
  | String c rest =>
      if line_start && at_delimiter delimiter input
      then Some ("", drop (S (String.length delimiter)) input)
      else
        match body delimiter (Ascii.eqb c "010") rest with
        | Some (text, after) => Some (String c text, after)
        | None => None
        end
  end.

End Heredoc.

(* ===================================================================== *)
(** ** Further vocabulary                                                 *)
(* ===================================================================== *)

Module Cover.
Import Py.

(** The number of occurrences of a character. *)
Fixpoint occurrences (c : ascii) (s : string) : nat :=
  match s with
  | "" => 0
  | String d rest => ((if Ascii.eqb d c then 1 else 0) + occurrences c rest)%nat
  end.


Section Vocabulary.
Context `{Py.Float}.



(** The options with every limit written out. *)
Definition resolved (opts : Sandbox.limits) : Sandbox.limits :=
  {| Sandbox.cpus := Some (Sandbox.cpu_limit opts);
     Sandbox.memory := Some (Sandbox.memory_limit opts);
     Sandbox.processes := Some (Sandbox.processes_limit opts);
     Sandbox.read_rate := Some (Sandbox.read_rate_limit opts);
     Sandbox.write_rate := Some (Sandbox.write_rate_limit opts) |}.

Context `{!Paramiko.Remote}.

(** Every [exec_command] of a history comes after a [connect] that
    established a session; [past] is what came before the history. *)
Fixpoint execs_after_session (past history : Paramiko.SSHClient) : Prop :=
  match history with
  | [] => True
  | c :: later =>
      match c with
      | Paramiko.exec_command _ _ => SSHConnection.established [] past = 1%nat
      | _ => True
      end
      /\ execs_after_session (past ++ [c])%list later
  end.

(** Two states of a transport with the same endpoint and credentials. *)
Definition same_endpoint (a b : SSHConnection.t) : Prop :=
  SSHConnection.host a = SSHConnection.host b
  /\ SSHConnection.port a = SSHConnection.port b
  /\ SSHConnection.username a = SSHConnection.username b
  /\ SSHConnection.password a = SSHConnection.password b
  /\ SSHConnection.key_file a = SSHConnection.key_file b
  /\ SSHConnection._is_passphrase a = SSHConnection._is_passphrase b.

(** A [connect] call carries the given keyword arguments. *)
Definition connects_with (kwargs : Paramiko.connect_kwargs) (c : Paramiko.call) : Prop :=
  match c with
  | Paramiko.connect used => used = kwargs
  | _ => True
  end.

End Vocabulary.

End Cover.

(* ===================================================================== *)
(** ** Facts about strings                                                *)
(* ===================================================================== *)

Section StringFacts.

Lemma append_assoc (a b c : string) : (a ++ b) ++ c = a ++ b ++ c.
Proof. induction a as [|x a IH]; simpl; [reflexivity | now rewrite IH]. Qed.

Lemma append_empty_r (a : string) : a ++ "" = a.
Proof. induction a as [|x a IH]; simpl; [reflexivity | now rewrite IH]. Qed.

Lemma prefix_cons (x y : ascii) (p s : string) :
  prefix (String x p) (String y s) = Ascii.eqb x y && prefix p s.
Proof.
  simpl. destruct (ascii_dec x y) as [->|Hne].
  - now rewrite Ascii.eqb_refl.
  - apply Ascii.eqb_neq in Hne. now rewrite Hne.
Qed.

Lemma prefix_empty (s : string) : prefix "" s = true.
Proof. now destruct s. Qed.

Lemma prefix_append (p b : string) : prefix p (p ++ b) = true.
Proof.
  induction p as [|x p IH]; [apply prefix_empty|].
  change (String x p ++ b) with (String x (p ++ b)).
  now rewrite prefix_cons, Ascii.eqb_refl, IH.
Qed.

Lemma contains_prefix (p s : string) : prefix p s = true -> Py.contains p s = true.
Proof. intros Hp. destruct s; simpl in *; now rewrite Hp. Qed.

Lemma contains_append_r (p a b : string) :
  Py.contains p b = true -> Py.contains p (a ++ b) = true.
Proof.
  intros Hb. induction a as [|x a IH]; [exact Hb|].
  change (String x a ++ b) with (String x (a ++ b)).
  simpl. rewrite IH. apply orb_true_r.
Qed.

(** A string contains whatever stands in its middle. *)
Lemma contains_middle (p a b : string) : Py.contains p (a ++ p ++ b) = true.
Proof. apply contains_append_r, contains_prefix, prefix_append. Qed.

Lemma contains_empty_pattern (s : string) : Py.contains "" s = true.
Proof. apply contains_prefix, prefix_empty. Qed.

(** A character foreign to the pattern cuts the search in two. *)
Lemma prefix_cut (c : ascii) (p a b : string) :
  Py.mem c p = false -> prefix p (a ++ String c b) = prefix p a.
Proof.
  revert a. induction p as [|x p IH]; intros a Hc.
  - now rewrite !prefix_empty.
  - simpl in Hc. apply orb_false_elim in Hc as [Hx Hp].
    destruct a as [|y a].
    + change ("" ++ String c b) with (String c b).
      rewrite prefix_cons. rewrite Ascii.eqb_sym, Hx. reflexivity.
    + change (String y a ++ String c b) with (String y (a ++ String c b)).
      rewrite !prefix_cons, IH by assumption. reflexivity.
Qed.

Lemma contains_empty (p : string) : Py.contains p "" = prefix p "".
Proof. simpl. apply orb_false_r. Qed.

Lemma contains_cut (c : ascii) (p a b : string) :
  Py.mem c p = false ->
  Py.contains p (a ++ String c b) = Py.contains p a || Py.contains p b.
Proof.
  intros Hc. induction a as [|y a IH].
  - change ("" ++ String c b) with (String c b).
    rewrite contains_empty.
    change (Py.contains p (String c b))
      with (prefix p (String c b) || Py.contains p b).
    rewrite <- (prefix_cut c p "" b Hc). reflexivity.
  - change (String y a ++ String c b) with (String y (a ++ String c b)).
    change (Py.contains p (String y (a ++ String c b)))
      with (prefix p (String y (a ++ String c b)) || Py.contains p (a ++ String c b)).
    change (Py.contains p (String y a))
      with (prefix p (String y a) || Py.contains p a).
    rewrite IH.
    change (String y (a ++ String c b)) with (String y a ++ String c b).
    rewrite prefix_cut by assumption.
    now rewrite !orb_assoc.
Qed.

(** A hole between two foreign characters is searched on its own. *)
Lemma contains_hole (c d : ascii) (p a h b : string) :
  Py.mem c p = false -> Py.mem d p = false ->
  Py.contains p (a ++ String c (h ++ String d b))
  = Py.contains p a || Py.contains p h || Py.contains p b.
Proof.
  intros Hc Hd. rewrite contains_cut by assumption.
  rewrite contains_cut by assumption. now rewrite orb_assoc.
Qed.

(** [replace] of a one-character pattern visits every character once. *)
Lemma replace_char (c : ascii) (new s : string) :
  Py.replace s (String c "") new = Spec.substitute c new s.
Proof.
  unfold Py.replace. induction s as [|d s IH]; [reflexivity|].
  cbn [Py.replace_from Spec.substitute String.length Nat.sub].
  rewrite prefix_cons, prefix_empty, andb_true_r, Ascii.eqb_sym.
  destruct (Ascii.eqb d c); rewrite IH; reflexivity.
Qed.

Lemma replace_quote (s : string) : Py.replace s "'" "'\''" = Spec.escape s.
Proof. apply replace_char. Qed.

(** Escaping neither creates nor destroys an occurrence of a pattern
    free of quotes and backslashes. *)
Lemma contains_escape_after (p a s : string) :
  Py.mem "'" p = false -> Py.mem "\" p = false ->
  Py.contains p (a ++ Spec.escape s) = Py.contains p (a ++ s).
Proof.
  intros Hq Hb. revert a. induction s as [|d s IH]; intros a; [reflexivity|].
  unfold Spec.escape in *. cbn [Spec.substitute].
  destruct (Ascii.eqb_spec d "'") as [->|Hd].
  - change ("'\''" ++ Spec.substitute "'" "'\''" s)
      with (String "'" ("" ++ String "\" ("" ++ String "'" ("" ++
             String "'" ("" ++ Spec.substitute "'" "'\''" s))))).
    rewrite !contains_cut by assumption.
    rewrite IH, !contains_empty.
    change ("" ++ s) with s.
    destruct p as [|x p].
    + rewrite !contains_empty_pattern. reflexivity.
    + reflexivity.
  - change (String d "" ++ Spec.substitute "'" "'\''" s)
      with (String d (Spec.substitute "'" "'\''" s)).
    change (a ++ String d (Spec.substitute "'" "'\''" s))
      with (a ++ String d "" ++ Spec.substitute "'" "'\''" s).
    rewrite <- append_assoc, IH, append_assoc. reflexivity.
Qed.

Lemma contains_escape (p s : string) :
  Py.mem "'" p = false -> Py.mem "\" p = false ->
  Py.contains p (Spec.escape s) = Py.contains p s.
Proof. intros Hq Hb. exact (contains_escape_after p "" s Hq Hb). Qed.

End StringFacts.


(** *** Searching a text with holes *)

Section TemplateFacts.

Lemma ends_foreign_split (p s : string) :
  Spec.ends_foreign p s = true ->
  exists a c, s = a ++ String c "" /\ Py.mem c p = false.
Proof.
  induction s as [|x s IH]; [discriminate|].
  destruct s as [|y s].
  - simpl. intros Hx. exists "", x. split; [reflexivity|].
    now apply negb_true_iff.
  - intros Hs. destruct (IH Hs) as (a & c & Ha & Hc).
    exists (String x a), c. split; [|assumption].
    simpl. now rewrite <- Ha.
Qed.

Lemma starts_foreign_split (p s : string) :
  Spec.starts_foreign p s = true ->
  exists d b, s = String d b /\ Py.mem d p = false.
Proof.
  destruct s as [|d b]; [discriminate|].
  simpl. intros Hd. exists d, b. split; [reflexivity|].
  now apply negb_true_iff.
Qed.

Lemma fill_starts (p first : string) (rest : list (string * string)) :
  Spec.starts_foreign p first = true -> Spec.starts_foreign p (Spec.fill first rest) = true.
Proof.
  intros Hs. destruct (starts_foreign_split p first Hs) as (d & b & -> & Hd).
  destruct rest as [|[h l] rest]; simpl; now rewrite Hd.
Qed.

(** The pattern occurs in a filled template exactly when it occurs in a
    literal or in a hole, provided no occurrence can straddle a border. *)
Lemma contains_fill (p : string) (rest : list (string * string)) :
  p <> "" ->
  forall first,
  Spec.ends_foreign p first = true ->
  forallb (fun hl => Spec.fenced p (snd hl)) rest = true ->
  Py.contains p (Spec.fill first rest)
  = Py.contains p first
    || existsb (fun hl => Py.contains p (fst hl) || Py.contains p (snd hl)) rest.
Proof.
  intros Hp. induction rest as [|[h l] rest IH]; intros first Hend Hrest.
  - simpl. now rewrite orb_false_r.
  - simpl in Hrest. apply andb_prop in Hrest as [Hl Hrest].
    apply andb_prop in Hl as [Hstart Hlend].
    cbn [Spec.fill existsb fst snd].
    rewrite <- (orb_assoc (Py.contains p h)), <- (IH l Hlend Hrest).
    destruct (ends_foreign_split p first Hend) as (a & c & -> & Hc).
    pose proof (fill_starts p l rest Hstart) as Hfs.
    destruct (starts_foreign_split p _ Hfs) as (d & b & Hfill & Hd).
    rewrite Hfill.
    rewrite append_assoc. change (String c "" ++ h ++ String d b)
      with (String c (h ++ String d b)).
    rewrite contains_hole by assumption.
    rewrite contains_cut by assumption.
    pose proof (contains_cut d p "" b Hd) as Hb.
    change ("" ++ String d b) with (String d b) in Hb.
    rewrite Hb, !contains_empty.
    destruct p as [|x p]; [contradiction|].
    simpl prefix. now rewrite !orb_false_r, orb_assoc.
Qed.

(** With literals free of the pattern, only the holes matter. *)
Lemma contains_fill_holes (p first : string) (rest : list (string * string)) :
  p <> "" ->
  Spec.ends_foreign p first = true ->
  forallb (fun hl => Spec.fenced p (snd hl)) rest = true ->
  Py.contains p first = false ->
  forallb (fun hl => negb (Py.contains p (snd hl))) rest = true ->
  Py.contains p (Spec.fill first rest) = existsb (fun hl => Py.contains p (fst hl)) rest.
Proof.
  intros Hp Hend Hfenced Hfirst Hfree.
  rewrite contains_fill, Hfirst by assumption. cbn [orb].
  clear Hfenced Hend Hfirst. induction rest as [|[h l] rest IH]; [reflexivity|].
  cbn [forallb existsb fst snd] in *.
  apply andb_prop in Hfree as [Hl Hfree]. apply negb_true_iff in Hl.
  now rewrite Hl, orb_false_r, IH.
Qed.

(** A text without the first character of the pattern is free of it. *)
Lemma contains_without_head (x : ascii) (p s : string) :
  Py.mem x s = false -> Py.contains (String x p) s = false.
Proof.
  induction s as [|y s IH]; [reflexivity|].
  intros Hm. simpl in Hm. apply orb_false_elim in Hm as [Hxy Hs].
  change (Py.contains (String x p) (String y s))
    with (prefix (String x p) (String y s) || Py.contains (String x p) s).
  now rewrite prefix_cons, Hxy, IH.
Qed.

Lemma uint_chars (c : ascii) (d : Decimal.uint) :
  Spec.is_digit c = false -> Py.mem c (NilEmpty.string_of_uint d) = false.
Proof.
  intros Hc. unfold Spec.is_digit in Hc. simpl in Hc.
  repeat (apply orb_false_elim in Hc as [? Hc]).
  induction d; simpl; rewrite ?IHd; auto;
    match goal with H : Ascii.eqb c ?k = false |- Ascii.eqb c ?k || _ = false =>
      now rewrite H end.
Qed.

(** The text of an integer is made of digits and a sign. *)
Lemma str_int_chars (c : ascii) (n : Z) :
  Spec.is_digit c = false -> Ascii.eqb c "-" = false ->
  Py.mem c (Py.str_int n) = false.
Proof.
  intros Hc Hm. unfold Py.str_int, NilZero.string_of_int, NilZero.string_of_uint.
  assert (Hz : Py.mem c "0" = false).
  { unfold Spec.is_digit in Hc. simpl in Hc. apply orb_false_elim in Hc as [H0 _].
    simpl. now rewrite H0. }
  destruct (Z.to_int n) as [d|d].
  - destruct d; try exact Hz; apply uint_chars; assumption.
  - cbn [Py.mem]. rewrite Hm. simpl.
    destruct d; try exact Hz; apply uint_chars; assumption.
Qed.

End TemplateFacts.

(** *** The shell's reading of quoted text *)

Section ShellFacts.

Lemma push_all_word (s text rest : string) :
  Shell.push_all s (Shell.Word text rest) = Shell.Word (s ++ text) rest.
Proof. induction s as [|c s IH]; simpl; [reflexivity | now rewrite IH]. Qed.

(** Between quotes, text free of quotes stands for itself. *)
Lemma word_single_plain (s rest : string) :
  Py.mem "'" s = false ->
  Shell.word Shell.InSingle (s ++ rest)
  = Shell.push_all s (Shell.word Shell.InSingle rest).
Proof.
  induction s as [|c s IH]; intros Hs; [reflexivity|].
  cbn [Py.mem] in Hs. apply orb_false_elim in Hs as [Hc Hs].
  change (String c s ++ rest) with (String c (s ++ rest)).
  cbn [Shell.word Shell.push_all].
  rewrite Ascii.eqb_sym, Hc, IH by assumption. reflexivity.
Qed.

(** Between quotes, escaped text stands for the original, and the reader
    is between quotes again after it. *)
Lemma word_single_escape (t rest : string) :
  Shell.word Shell.InSingle (Spec.escape t ++ rest)
  = Shell.push_all t (Shell.word Shell.InSingle rest).
Proof.
  unfold Spec.escape. induction t as [|c t IH]; [reflexivity|].
  cbn [Spec.substitute Shell.push_all]. rewrite append_assoc.
  destruct (Ascii.eqb_spec c "'") as [->|Hc].
  - change ("'\''" ++ Spec.substitute "'" "'\''" t ++ rest)
      with (String "'" (String "\" (String "'" (String "'"
              (Spec.substitute "'" "'\''" t ++ rest))))).
    cbn. change (Shell.word Shell.InSingle (Spec.substitute "'" "'\''" t ++ rest)
            = Shell.push_all t (Shell.word Shell.InSingle rest)) in IH.
    now rewrite IH.
  - change (String c "" ++ Spec.substitute "'" "'\''" t ++ rest)
      with (String c (Spec.substitute "'" "'\''" t ++ rest)).
    cbn [Shell.word]. apply Ascii.eqb_neq in Hc. now rewrite Hc, IH.
Qed.

End ShellFacts.

(* ===================================================================== *)
(** ** The assembled command                                              *)
(* ===================================================================== *)

Section CommandFacts.
Context `{Py.Float}.

Lemma get_env_exports_map (environment : Sandbox.environ) :
  Sandbox._get_env_exports environment
  = Py.join " && " (map Spec.export_of environment).
Proof.
  unfold Sandbox._get_env_exports. f_equal.
  apply map_ext. now intros [k v].
Qed.

(** The command is the [docker run] invocation with its five flags,
    followed by one single-quoted argument: the script, in which the
    manifest and the code stand escaped. *)
Lemma command_shape (self : Sandbox.t) (code : string)
    (environment : option Sandbox.environ) (opts : Sandbox.limits) :
  Sandbox.command self code environment opts
  = Spec.flags opts ++ "'" ++
    Spec.script (Sandbox.name self) (Spec.exports_line environment)
      (Spec.escape (Sandbox.pyproject self)) (Spec.escape code) ++ "'".
Proof.
  unfold Sandbox.command. rewrite !replace_quote.
  unfold Spec.flags, Spec.docker_run, Spec.script, Spec.exports_line.
  destruct environment as [[|entry entries]|]; cbn [Sandbox.bool_of_environment];
    rewrite ?get_env_exports_map, !append_assoc; reflexivity.
Qed.

Lemma word_open (s : string) :
  Shell.word Shell.Unquoted ("'" ++ s) = Shell.word Shell.InSingle s.
Proof. reflexivity. Qed.

(** Reads the chunks of a quoted text one after the other. *)
Ltac read_quoted Hname :=
  repeat match goal with
  | |- context [Shell.word Shell.InSingle (Spec.escape ?t ++ ?r)] =>
      rewrite (word_single_escape t r)
  | |- context [Shell.word Shell.InSingle (?s ++ ?r)] =>
      rewrite (word_single_plain s r) by (exact Hname || reflexivity)
  end.

(** Read by the remote shell, the quoted script of a call without
    environment is one word: the script with the original manifest and
    code, up to the end of the command. *)
Lemma script_word (name pyproject code : string) :
  Py.mem "'" name = false ->
  Shell.word Shell.Unquoted
    ("'" ++ Spec.script name "" (Spec.escape pyproject) (Spec.escape code) ++ "'")
  = Shell.Word (Spec.script name "" pyproject code) "".
Proof.
  intros Hname. rewrite word_open.
  unfold Spec.script. rewrite !append_assoc.
  read_quoted Hname.
  change (Shell.word Shell.InSingle "'") with (Shell.Word "" "").
  rewrite !push_all_word, append_empty_r. reflexivity.
Qed.

(** C1.  [run_code] replaces every single quote of the manifest text and of
    the code text by the four characters quote, backslash, quote, quote
    before embedding them between the outer quotes of the command.  Read by
    the remote shell from inside those quotes, each escaped text yields the
    original text character for character and leaves the reader inside the
    quotes, whatever follows; and in a call without environment, for a
    sandbox name free of quotes, the whole quoted argument is one word that
    ends with the command and is the script with the original texts. *)
Theorem run_code_escapes_single_quotes (self : Sandbox.t) (code : string)
    (environment : option Sandbox.environ) (opts : Sandbox.limits) :
  Py.replace (Sandbox.pyproject self) "'" "'\''" = Spec.escape (Sandbox.pyproject self)
  /\ Py.replace code "'" "'\''" = Spec.escape code
  /\ Sandbox.command self code environment opts
     = Spec.flags opts ++ "'" ++
       Spec.script (Sandbox.name self) (Spec.exports_line environment)
         (Spec.escape (Sandbox.pyproject self)) (Spec.escape code) ++ "'"
  /\ (forall rest,
        Shell.word Shell.InSingle (Spec.escape (Sandbox.pyproject self) ++ rest)
        = Shell.push_all (Sandbox.pyproject self) (Shell.word Shell.InSingle rest))
  /\ (forall rest,
        Shell.word Shell.InSingle (Spec.escape code ++ rest)
        = Shell.push_all code (Shell.word Shell.InSingle rest))
  /\ (Sandbox.bool_of_environment environment = false ->
      Py.mem "'" (Sandbox.name self) = false ->
      exists argument,
        Sandbox.command self code environment opts = Spec.flags opts ++ argument
        /\ Shell.word Shell.Unquoted argument
           = Shell.Word
               (Spec.script (Sandbox.name self) "" (Sandbox.pyproject self) code) "").
Proof.
  repeat split.
  - apply replace_quote.
  - apply replace_quote.
  - apply command_shape.
  - intros rest. apply word_single_escape.
  - intros rest. apply word_single_escape.
  - intros Henv Hname. eexists. split.
    + apply command_shape.
    + replace (Spec.exports_line environment) with "".
      * now apply script_word.
      * now destruct environment as [[|entry entries]|].
Qed.

(** C4.  Every resource option left out by the caller is replaced by its
    documented default before the command is assembled, and the default
    stands at the option's flag: [--pids-limit 100], [--cpus 1], [-m 512m],
    and [10mb] for the read and the write throughput. *)
Theorem omitted_limits_take_defaults (self : Sandbox.t) (code : string)
    (environment : option Sandbox.environ) (opts : Sandbox.limits) :
  let command := Sandbox.command self code environment opts in
  command
  = Spec.docker_run (Py.str_int (Sandbox.processes_limit opts))
      (Py.str_number (Sandbox.cpu_limit opts))
      (Py.str_int (Sandbox.memory_limit opts))
      (Sandbox.read_rate_limit opts) (Sandbox.write_rate_limit opts) ++ "'" ++
    Spec.script (Sandbox.name self) (Spec.exports_line environment)
      (Spec.escape (Sandbox.pyproject self)) (Spec.escape code) ++ "'"
  /\ (Sandbox.processes opts = None ->
      Py.str_int (Sandbox.processes_limit opts) = "100"
      /\ Py.contains "--pids-limit 100 " command = true)
  /\ (Sandbox.cpus opts = None ->
      Py.str_number (Sandbox.cpu_limit opts) = "1"
      /\ Py.contains " --cpus 1 " command = true)
  /\ (Sandbox.memory opts = None ->
      Py.str_int (Sandbox.memory_limit opts) = "512"
      /\ Py.contains " -m 512m " command = true)
  /\ (Sandbox.read_rate opts = None ->
      Sandbox.read_rate_limit opts = "10mb"
      /\ Py.contains " --device-read-bps=/dev/sda:10mb " command = true)
  /\ (Sandbox.write_rate opts = None ->
      Sandbox.write_rate_limit opts = "10mb"
      /\ Py.contains " --device-write-bps=/dev/sda:10mb " command = true)
  /\ (opts = Sandbox.no_limits ->
      prefix "docker run --pids-limit 100 --cpus 1 -m 512m --device-read-bps=/dev/sda:10mb --device-write-bps=/dev/sda:10mb --rm ghcr.io/astral-sh/uv:alpine /bin/sh -c '"
        command = true).
Proof.
  intros command. subst command. rewrite command_shape.
  unfold Spec.flags, Spec.docker_run. rewrite !append_assoc.
  split; [reflexivity|].
  unfold Sandbox.processes_limit, Sandbox.cpu_limit, Sandbox.memory_limit,
    Sandbox.read_rate_limit, Sandbox.write_rate_limit.
  repeat (split; [intros ->; cbn [Py.or_default]; split; [reflexivity|] |]).
  - change "docker run --pids-limit " with ("docker run " ++ "--pids-limit ").
    rewrite append_assoc. apply contains_append_r. now apply contains_prefix.
  - do 2 apply contains_append_r. now apply contains_prefix.
  - do 4 apply contains_append_r. now apply contains_prefix.
  - do 6 apply contains_append_r.
    change "m --device-read-bps=/dev/sda:" with ("m" ++ " --device-read-bps=/dev/sda:").
    rewrite append_assoc. apply contains_append_r. now apply contains_prefix.
  - do 8 apply contains_append_r. now apply contains_prefix.
  - intros ->. reflexivity.
Qed.

(** C5, as amended.  A resource option supplied with a value that Python
    counts as true (a number other than zero, a text other than the empty
    one) stands verbatim at its flag; a supplied zero or empty text is
    treated like an omitted option and gives the default. *)
Theorem supplied_limits_stand_verbatim (self : Sandbox.t) (code : string)
    (environment : option Sandbox.environ) (opts : Sandbox.limits) :
  Sandbox.command self code environment opts
  = Spec.docker_run (Py.str_int (Sandbox.processes_limit opts))
      (Py.str_number (Sandbox.cpu_limit opts))
      (Py.str_int (Sandbox.memory_limit opts))
      (Sandbox.read_rate_limit opts) (Sandbox.write_rate_limit opts) ++ "'" ++
    Spec.script (Sandbox.name self) (Spec.exports_line environment)
      (Spec.escape (Sandbox.pyproject self)) (Spec.escape code) ++ "'"
  /\ (forall n, Sandbox.processes opts = Some n ->
        Sandbox.processes_limit opts = if (n =? 0)%Z then 100%Z else n)
  /\ (forall x, Sandbox.cpus opts = Some x ->
        Sandbox.cpu_limit opts = if Py.bool_of_number x then x else Py.Int 1)
  /\ (forall n, Sandbox.memory opts = Some n ->
        Sandbox.memory_limit opts = if (n =? 0)%Z then 512%Z else n)
  /\ (forall s, Sandbox.read_rate opts = Some s ->
        Sandbox.read_rate_limit opts = if String.eqb s "" then "10mb" else s)
  /\ (forall s, Sandbox.write_rate opts = Some s ->
        Sandbox.write_rate_limit opts = if String.eqb s "" then "10mb" else s).
Proof.
  split; [apply command_shape|].
  unfold Sandbox.processes_limit, Sandbox.cpu_limit, Sandbox.memory_limit,
    Sandbox.read_rate_limit, Sandbox.write_rate_limit, Py.bool_of_int.
  repeat split; intros v ->; cbn [Py.or_default]; try reflexivity.
  - now destruct (v =? 0)%Z.
  - now destruct (v =? 0)%Z.
  - now destruct v.
  - now destruct v.
Qed.

(** The holes of a command without export segment, and the literals
    between them. *)
Lemma command_fill (self : Sandbox.t) (code : string)
    (environment : option Sandbox.environ) (opts : Sandbox.limits) :
  Sandbox.bool_of_environment environment = false ->
  Sandbox.command self code environment opts
  = Spec.fill "docker run --pids-limit "
      [ (Py.str_int (Sandbox.processes_limit opts), " --cpus ");
        (Py.str_number (Sandbox.cpu_limit opts), " -m ");
        (Py.str_int (Sandbox.memory_limit opts), "m --device-read-bps=/dev/sda:");
        (Sandbox.read_rate_limit opts, " --device-write-bps=/dev/sda:");
        (Sandbox.write_rate_limit opts,
         " --rm ghcr.io/astral-sh/uv:alpine /bin/sh -c '" ++ Py.nl ++ "mkdir -p /tmp/");
        (Sandbox.name self, " && cat > /tmp/");
        (Sandbox.name self, "/pyproject.toml << " ++ Py.dq ++ "EOF" ++ Py.dq ++ Py.nl);
        (Spec.escape (Sandbox.pyproject self), Py.nl ++ "EOF" ++ Py.nl ++ "cat > /tmp/");
        (Sandbox.name self, "/script.py << " ++ Py.dq ++ "EOF" ++ Py.dq ++ Py.nl);
        (Spec.escape code, Py.nl ++ "EOF" ++ Py.nl ++ "cd /tmp/");
        (Sandbox.name self, "/ && uv run script.py" ++ Py.nl ++ "'") ].
Proof.
  intros Henv. unfold Sandbox.command. rewrite Henv, !replace_quote.
  cbn [Spec.fill]. rewrite !append_assoc. reflexivity.
Qed.

Lemma export_in_command (self : Sandbox.t) (code : string)
    (environment : option Sandbox.environ) (opts : Sandbox.limits) :
  Sandbox.bool_of_environment environment = false ->
  Py.contains "export" (Sandbox.command self code environment opts)
  = Py.contains "export" (Py.str_number (Sandbox.cpu_limit opts))
    || Py.contains "export" (Sandbox.read_rate_limit opts)
    || Py.contains "export" (Sandbox.write_rate_limit opts)
    || Py.contains "export" (Sandbox.name self)
    || Py.contains "export" (Sandbox.pyproject self)
    || Py.contains "export" code.
Proof.
  intros Henv. rewrite command_fill by assumption.
  rewrite contains_fill_holes; [| discriminate | reflexivity ..].
  cbn [existsb fst].
  rewrite !contains_escape by reflexivity.
  rewrite !(contains_without_head "e" "xport" (Py.str_int _))
    by (apply str_int_chars; reflexivity).
  cbn [orb].
  destruct (Py.contains "export" (Py.str_number (Sandbox.cpu_limit opts))),
    (Py.contains "export" (Sandbox.read_rate_limit opts)),
    (Py.contains "export" (Sandbox.write_rate_limit opts)),
    (Py.contains "export" (Sandbox.name self)),
    (Py.contains "export" (Sandbox.pyproject self)),
    (Py.contains "export" code); reflexivity.
Qed.

(** C6, as amended.  For a non-empty environment mapping the script opens
    with one [export K='V'] per entry, in the mapping's order, joined by the
    connective and followed by it.  For an empty or absent mapping the
    segment is left out altogether: the command then contains the word
    [export] exactly when a text supplied by the caller does (the sandbox
    name, the manifest, the code, a throughput option or the text of the
    CPU number). *)
Theorem environment_exports (self : Sandbox.t) (code : string)
    (environment : option Sandbox.environ) (opts : Sandbox.limits) :
  let command := Sandbox.command self code environment opts in
  (forall entry entries, environment = Some (entry :: entries) ->
     let exports := Py.join " && " (map Spec.export_of (entry :: entries)) in
     Sandbox._get_env_exports (entry :: entries) = exports
     /\ command
        = Spec.flags opts ++ "'" ++
          Spec.script (Sandbox.name self) (exports ++ " && ")
            (Spec.escape (Sandbox.pyproject self)) (Spec.escape code) ++ "'"
     /\ Py.contains exports command = true)
  /\ (Sandbox.bool_of_environment environment = false ->
      command
      = Spec.flags opts ++ "'" ++
        Spec.script (Sandbox.name self) ""
          (Spec.escape (Sandbox.pyproject self)) (Spec.escape code) ++ "'"
      /\ Py.contains "export" command
         = Py.contains "export" (Py.str_number (Sandbox.cpu_limit opts))
           || Py.contains "export" (Sandbox.read_rate_limit opts)
           || Py.contains "export" (Sandbox.write_rate_limit opts)
           || Py.contains "export" (Sandbox.name self)
           || Py.contains "export" (Sandbox.pyproject self)
           || Py.contains "export" code).
Proof.
  intros command. subst command. split.
  - intros entry entries ->. cbn zeta. split; [apply get_env_exports_map|].
    rewrite command_shape. split; [reflexivity|].
    unfold Spec.script. cbn [Spec.exports_line].
    rewrite !append_assoc. do 3 apply contains_append_r.
    apply contains_prefix, prefix_append.
  - intros Henv. split; [|now apply export_in_command].
    rewrite command_shape. now destruct environment as [[|entry entries]|].
Qed.

(** C10.  The values of the environment mapping are embedded as they are,
    between two single quotes: no quote of a value is escaped.  For the
    value [it's] the export segment holds [export K='it's'], and the remote
    shell ends the quoted argument of the command inside that segment: the
    connective and the rest of the script are left outside it. *)
Theorem environment_values_are_not_escaped (self : Sandbox.t) (code : string)
    (opts : Sandbox.limits) :
  (forall k v, Sandbox._get_env_exports [(k, v)]
               = "export " ++ k ++ "='" ++ Py.str_value v ++ "'")
  /\ (forall environment,
        Sandbox._get_env_exports environment
        = Py.join " && "
            (map (fun kv => "export " ++ fst kv ++ "='" ++ Py.str_value (snd kv) ++ "'")
               environment))
  /\ exists v,
       Py.mem "'" (Py.str_value v) = true
       /\ Py.contains ("export K='" ++ Py.str_value v ++ "'")
            (Sandbox.command self code (Some [("K", v)]) opts) = true
       /\ exists argument text rest,
            Sandbox.command self code (Some [("K", v)]) opts
            = Spec.flags opts ++ argument
            /\ Shell.word Shell.Unquoted argument = Shell.Word text rest
            /\ text = Py.nl ++ "export K=its"
            /\ prefix " && mkdir -p /tmp/" rest = true.
Proof.
  split; [reflexivity|]. split; [apply get_env_exports_map|].
  exists (Py.VStr "it's"). split; [reflexivity|]. split.
  - rewrite command_shape. unfold Spec.script. cbn [Spec.exports_line].
    rewrite !append_assoc. do 3 apply contains_append_r.
    apply contains_prefix. reflexivity.
  - eexists. do 2 eexists. split; [apply command_shape|].
    unfold Spec.script. cbn [Spec.exports_line map Py.join String.concat
      Spec.export_of fst snd Py.str_value].
    rewrite !append_assoc. cbn. split; [reflexivity|]. split; [reflexivity|].
    apply (prefix_append " && mkdir -p /tmp/").
Qed.

End CommandFacts.

(* ===================================================================== *)
(** ** The transport                                                      *)
(* ===================================================================== *)

Section TransportFacts.
Context `{Py.Float} `{!Paramiko.Remote}.

(** C2.  The credential combinations of the transport's constructor:
    a password alone selects the password mode; a passphrase with a key
    file selects the key mode; a passphrase with a password and no key file
    falls back to the password mode; a passphrase with neither is refused,
    and so is the absence of both secrets.  The refusals are [ValueError]s,
    the package's error for an invalid configuration. *)
Theorem credential_combinations (host : string) (port : Z) (username : string) :
  (forall pw key,
     exists conn,
       SSHConnection.init host port username (Some pw) None key = inr conn
       /\ SSHConnection._is_passphrase conn = false
       /\ SSHConnection.password conn = pw
       /\ SSHConnection.key_file conn = None
       /\ Paramiko.password (SSHConnection.connect_kwargs conn) = Some pw
       /\ Paramiko.passphrase (SSHConnection.connect_kwargs conn) = None
       /\ Paramiko.key_filename (SSHConnection.connect_kwargs conn) = None)
  /\ (forall pw phrase file,
        exists conn,
          SSHConnection.init host port username pw (Some phrase) (Some file) = inr conn
          /\ SSHConnection._is_passphrase conn = true
          /\ SSHConnection.password conn = phrase
          /\ SSHConnection.key_file conn = Some file
          /\ Paramiko.password (SSHConnection.connect_kwargs conn) = None
          /\ Paramiko.passphrase (SSHConnection.connect_kwargs conn) = Some phrase
          /\ Paramiko.key_filename (SSHConnection.connect_kwargs conn) = Some file)
  /\ (forall pw phrase,
        exists conn,
          SSHConnection.init host port username (Some pw) (Some phrase) None = inr conn
          /\ SSHConnection._is_passphrase conn = false
          /\ SSHConnection.password conn = pw
          /\ SSHConnection.key_file conn = None
          /\ Paramiko.password (SSHConnection.connect_kwargs conn) = Some pw
          /\ Paramiko.passphrase (SSHConnection.connect_kwargs conn) = None
          /\ Paramiko.key_filename (SSHConnection.connect_kwargs conn) = None)
  /\ (forall phrase,
        exists msg,
          SSHConnection.init host port username None (Some phrase) None
          = inl (Py.ValueError msg))
  /\ (forall key,
        exists msg,
          SSHConnection.init host port username None None key
          = inl (Py.ValueError msg)).
Proof.
  repeat split.
  - intros pw key. eexists. repeat split.
  - intros pw phrase file. eexists. destruct pw; repeat split.
  - intros pw phrase. eexists. repeat split.
  - intros phrase. eexists. reflexivity.
  - intros key. eexists. reflexivity.
Qed.

(** A new transport is unconnected and its client has not been used. *)
Lemma init_fresh (host : string) (port : Z) (username : string)
    (password passphrase key_file : option string) (conn : SSHConnection.t) :
  SSHConnection.init host port username password passphrase key_file = inr conn ->
  SSHConnection._is_connected conn = false /\ SSHConnection._client conn = [].
Proof.
  unfold SSHConnection.init.
  destruct password, passphrase, key_file; intros [= <-]; split; reflexivity.
Qed.

Lemma established_app (past h1 h2 : Paramiko.SSHClient) :
  SSHConnection.established past (h1 ++ h2)%list
  = (SSHConnection.established past h1
     + SSHConnection.established (past ++ h1)%list h2)%nat.
Proof.
  revert past. induction h1 as [|c h1 IH]; intros past.
  - simpl. now rewrite app_nil_r.
  - cbn [app SSHConnection.established]. rewrite IH, <- app_assoc.
    cbn [app]. lia.
Qed.

(** On a connected transport a call goes straight to [exec_command]. *)
Lemma execute_command_connected (command : string) (timeout : option Py.number)
    (self : SSHConnection.t) :
  SSHConnection._is_connected self = true ->
  fst (SSHConnection.execute_command command timeout self)
  = SSHConnection.call_client (Paramiko.exec_command command timeout) self.
Proof.
  intros Hc. unfold SSHConnection.execute_command. rewrite Hc. reflexivity.
Qed.

(** On an unconnected transport a call runs the connect step first, and
    goes on to [exec_command] only if that step succeeds. *)
Lemma execute_command_unconnected (command : string) (timeout : option Py.number)
    (self : SSHConnection.t) :
  SSHConnection._is_connected self = false ->
  let kwargs := SSHConnection.connect_kwargs self in
  let knock := (SSHConnection._client self ++
                [Paramiko.set_missing_host_key_policy])%list in
  let after := fst (SSHConnection.execute_command command timeout self) in
  match Paramiko.connect_result knock kwargs with
  | None =>
      SSHConnection._client after
      = (knock ++ [Paramiko.connect kwargs; Paramiko.exec_command command timeout])%list
      /\ SSHConnection._is_connected after = true
  | Some e =>
      SSHConnection._client after = (knock ++ [Paramiko.connect kwargs])%list
      /\ SSHConnection._is_connected after = false
      /\ snd (SSHConnection.execute_command command timeout self) = inl e
  end.
Proof.
  intros Hc. cbn zeta.
  unfold SSHConnection.execute_command, SSHConnection._connect. rewrite Hc.
  cbn [negb].
  change (SSHConnection.connect_kwargs
            (SSHConnection.call_client Paramiko.set_missing_host_key_policy self))
    with (SSHConnection.connect_kwargs self).
  cbn [SSHConnection.call_client SSHConnection._client].
  destruct (Paramiko.connect_result _ _) as [e|].
  - cbn. rewrite Hc. repeat split.
  - cbn. rewrite <- app_assoc. split; reflexivity.
Qed.

(** Whatever the network does, the sessions established on a transport
    are as many as its connection flag says: one or none. *)
Lemma execute_command_established (command : string) (timeout : option Py.number)
    (self : SSHConnection.t) :
  SSHConnection.established [] (SSHConnection._client self)
  = (if SSHConnection._is_connected self then 1 else 0)%nat ->
  let after := fst (SSHConnection.execute_command command timeout self) in
  SSHConnection.established [] (SSHConnection._client after)
  = (if SSHConnection._is_connected after then 1 else 0)%nat.
Proof.
  intros Hinv. cbn zeta.
  destruct (SSHConnection._is_connected self) eqn:Hc.
  - rewrite execute_command_connected by assumption.
    cbn [SSHConnection.call_client SSHConnection._client SSHConnection._is_connected].
    rewrite established_app, Hinv, Hc. reflexivity.
  - pose proof (execute_command_unconnected command timeout self Hc) as Hstep.
    cbn zeta in Hstep.
    destruct (Paramiko.connect_result _ _) as [e|] eqn:Hres.
    + destruct Hstep as (-> & -> & _).
      rewrite !established_app, Hinv. cbn [SSHConnection.established app].
      rewrite Hres. reflexivity.
    + destruct Hstep as (-> & ->).
      rewrite !established_app, Hinv. cbn [SSHConnection.established app].
      rewrite Hres. reflexivity.
Qed.

Lemma execute_all_established (calls : list (string * option Py.number))
    (self : SSHConnection.t) :
  SSHConnection.established [] (SSHConnection._client self)
  = (if SSHConnection._is_connected self then 1 else 0)%nat ->
  let final := fst (SSHConnection.execute_all calls self) in
  SSHConnection.established [] (SSHConnection._client final)
  = (if SSHConnection._is_connected final then 1 else 0)%nat.
Proof.
  revert self. induction calls as [|[command timeout] calls IH]; intros self Hinv.
  - exact Hinv.
  - cbn zeta. cbn [SSHConnection.execute_all].
    pose proof (execute_command_established command timeout self Hinv) as Hstep.
    cbn zeta in Hstep.
    destruct (SSHConnection.execute_command command timeout self) as [self1 r].
    specialize (IH self1 Hstep). cbn zeta in IH.
    destruct (SSHConnection.execute_all calls self1) as [self2 rs].
    exact IH.
Qed.

(** On a connected transport a sequence of calls is a sequence of
    [exec_command]s. *)
Lemma execute_all_connected (calls : list (string * option Py.number))
    (self : SSHConnection.t) :
  SSHConnection._is_connected self = true ->
  let final := fst (SSHConnection.execute_all calls self) in
  SSHConnection._client final
  = (SSHConnection._client self
     ++ map (fun call => Paramiko.exec_command (fst call) (snd call)) calls)%list
  /\ SSHConnection._is_connected final = true.
Proof.
  revert self. induction calls as [|[command timeout] calls IH]; intros self Hc.
  - cbn. now rewrite app_nil_r.
  - cbn zeta. cbn [SSHConnection.execute_all].
    pose proof (execute_command_connected command timeout self Hc) as Hstep.
    destruct (SSHConnection.execute_command command timeout self) as [self1 r].
    cbn [fst] in Hstep. subst self1.
    specialize (IH (SSHConnection.call_client
                      (Paramiko.exec_command command timeout) self) Hc).
    cbn zeta in IH.
    destruct (SSHConnection.execute_all calls _) as [self2 rs].
    cbn [fst] in *. destruct IH as [-> ->]. split; [|reflexivity].
    cbn [SSHConnection.call_client SSHConnection._client map fst snd].
    now rewrite <- app_assoc.
Qed.

(** C8.  Over any sequence of [execute_command] calls on one transport,
    whatever the network answers, at most one session is established, and
    exactly one once the transport is connected.  When the first connection
    attempt succeeds, the client sees one [connect], in the first call and
    before its [exec_command], followed by one [exec_command] per call and
    nothing else.  The connect step runs only in a call that finds the
    transport unconnected: a call on a connected transport adds a single
    [exec_command] to the client's history. *)
Theorem session_established_once (host : string) (port : Z) (username : string)
    (password passphrase key_file : option string) (conn : SSHConnection.t)
    (calls : list (string * option Py.number)) :
  SSHConnection.init host port username password passphrase key_file = inr conn ->
  let final := fst (SSHConnection.execute_all calls conn) in
  let kwargs := SSHConnection.connect_kwargs conn in
  (SSHConnection.established [] (SSHConnection._client final) <= 1)%nat
  /\ SSHConnection.established [] (SSHConnection._client final)
     = (if SSHConnection._is_connected final then 1 else 0)%nat
  /\ (calls <> [] ->
      Paramiko.connect_result [Paramiko.set_missing_host_key_policy] kwargs = None ->
      SSHConnection._client final
      = (Paramiko.set_missing_host_key_policy :: Paramiko.connect kwargs
         :: map (fun call => Paramiko.exec_command (fst call) (snd call)) calls)
      /\ SSHConnection._is_connected final = true
      /\ SSHConnection.established [] (SSHConnection._client final) = 1%nat)
  /\ (forall self command timeout,
        SSHConnection._is_connected self = true ->
        fst (SSHConnection.execute_command command timeout self)
        = SSHConnection.call_client (Paramiko.exec_command command timeout) self).
Proof.
  intros Hinit. destruct (init_fresh _ _ _ _ _ _ _ Hinit) as [Hc Hclient].
  cbn zeta.
  assert (Hinv : SSHConnection.established [] (SSHConnection._client
                   (fst (SSHConnection.execute_all calls conn)))
                 = (if SSHConnection._is_connected
                         (fst (SSHConnection.execute_all calls conn))
                    then 1 else 0)%nat).
  { apply execute_all_established. now rewrite Hclient, Hc. }
  split; [|split; [exact Hinv|split]].
  - rewrite Hinv.
    destruct (SSHConnection._is_connected (fst (SSHConnection.execute_all calls conn))); lia.
  - intros Hcalls Hok. destruct calls as [|[command timeout] calls]; [contradiction|].
    clear Hcalls.
    assert (Hshape : SSHConnection._client
                       (fst (SSHConnection.execute_all ((command, timeout) :: calls) conn))
                     = (Paramiko.set_missing_host_key_policy
                        :: Paramiko.connect (SSHConnection.connect_kwargs conn)
                        :: map (fun call => Paramiko.exec_command (fst call) (snd call))
                             ((command, timeout) :: calls))
                     /\ SSHConnection._is_connected
                          (fst (SSHConnection.execute_all ((command, timeout) :: calls) conn))
                        = true).
    { cbn [SSHConnection.execute_all].
      pose proof (execute_command_unconnected command timeout conn Hc) as Hstep.
      cbn zeta in Hstep. rewrite Hclient in Hstep. cbn [app] in Hstep.
      rewrite Hok in Hstep.
      destruct (SSHConnection.execute_command command timeout conn) as [self1 r].
      cbn [fst] in Hstep. destruct Hstep as [Hhist Hup].
      pose proof (execute_all_connected calls self1 Hup) as Hrest.
      cbn zeta in Hrest.
      destruct (SSHConnection.execute_all calls self1) as [self2 rs].
      cbn [fst] in *. destruct Hrest as [-> ->]. rewrite Hhist.
      split; reflexivity. }
    destruct Hshape as [Hhist Hup]. repeat split; try assumption.
    rewrite Hinv, Hup. reflexivity.
  - intros self command timeout. apply execute_command_connected.
Qed.

End TransportFacts.

(* ===================================================================== *)
(** ** The orchestrator                                                   *)
(* ===================================================================== *)

Section OrchestratorFacts.
Context `{Py.Float} `{!Paramiko.Remote} `{Sandbox.FileSystem}.

(** C3.  The orchestrator's constructor accepts exactly one of a manifest
    object and a manifest path.  Neither, or both, is refused; so is a path
    that does not exist or is not a regular file; the refusals are
    [ValueError]s and the file is not opened.  With a manifest object the
    stored text is the object's rendering; with a valid path it is the
    file's content, read by the one [open] of the construction. *)
Theorem init_manifest_source (name : string) (conn : SSHConnection.t) :
  (exists msg, Sandbox.init name conn None None = ([], inl (Py.ValueError msg)))
  /\ (forall config path,
        exists msg,
          Sandbox.init name conn (Some config) (Some path)
          = ([], inl (Py.ValueError msg)))
  /\ (forall path,
        Sandbox.path_exists path = false \/ Sandbox.path_is_file path = false ->
        exists calls msg,
          Sandbox.init name conn None (Some path) = (calls, inl (Py.ValueError msg))
          /\ ~ In (Sandbox.OpenRead path) calls)
  /\ (forall config,
        Sandbox.init name conn (Some config) None
        = ([], inr {| Sandbox.pyproject := PyprojectConfig.to_str config;
                      Sandbox.name := name;
                      Sandbox.remote_connection := conn |}))
  /\ (forall path content,
        Sandbox.path_exists path = true ->
        Sandbox.path_is_file path = true ->
        Sandbox.read_text path = inr content ->
        Sandbox.init name conn None (Some path)
        = ([Sandbox.Exists path; Sandbox.IsFile path; Sandbox.OpenRead path],
           inr {| Sandbox.pyproject := content;
                  Sandbox.name := name;
                  Sandbox.remote_connection := conn |}))
  /\ (forall config path calls sandbox,
        Sandbox.init name conn config (Some path) = (calls, inr sandbox) ->
        config = None
        /\ Sandbox.read_text path = inr (Sandbox.pyproject sandbox)
        /\ count_occ Sandbox.fs_call_eq_dec calls (Sandbox.OpenRead path) = 1%nat)
  /\ (forall config calls sandbox,
        Sandbox.init name conn config None = (calls, inr sandbox) ->
        calls = []
        /\ exists manifest,
             config = Some manifest
             /\ Sandbox.pyproject sandbox = PyprojectConfig.to_str manifest).
Proof.
  split; [eexists; reflexivity|].
  split; [intros; eexists; reflexivity|].
  split; [|split; [reflexivity|split; [|split]]].
  - intros path Hbad. unfold Sandbox.init.
    destruct (Sandbox.path_exists path) eqn:He; cbn [negb].
    + destruct Hbad as [Hbad|Hbad]; [discriminate|]. rewrite Hbad. cbn [negb].
      do 2 eexists. split; [reflexivity|].
      intros [Hin|[Hin|[]]]; discriminate.
    + do 2 eexists. split; [reflexivity|].
      intros [Hin|[]]; discriminate.
  - intros path content He Hf Hr. unfold Sandbox.init.
    now rewrite He, Hf, Hr.
  - intros config path calls sandbox. unfold Sandbox.init.
    destruct config as [config|]; [discriminate|].
    destruct (Sandbox.path_exists path); cbn [negb]; [|discriminate].
    destruct (Sandbox.path_is_file path); cbn [negb]; [|discriminate].
    destruct (Sandbox.read_text path) as [e|content]; [discriminate|].
    intros [= <- <-]. split; [reflexivity|]. split; [reflexivity|].
    cbn [count_occ].
    destruct (Sandbox.fs_call_eq_dec (Sandbox.Exists path) (Sandbox.OpenRead path));
      [discriminate|].
    destruct (Sandbox.fs_call_eq_dec (Sandbox.IsFile path) (Sandbox.OpenRead path));
      [discriminate|].
    destruct (Sandbox.fs_call_eq_dec (Sandbox.OpenRead path) (Sandbox.OpenRead path));
      [reflexivity|contradiction].
  - intros config calls sandbox. unfold Sandbox.init.
    destruct config as [config|]; [|discriminate].
    intros [= <- <-]. split; [reflexivity|]. now exists config.
Qed.

(** After a call that reached [exec_command], the client's last call is
    that one. *)
Lemma execute_command_last (command : string) (timeout : option Py.number)
    (self : SSHConnection.t) :
  let sent := SSHConnection.execute_command command timeout self in
  SSHConnection._is_connected (fst sent) = true ->
  exists before,
    SSHConnection._client (fst sent)
    = (before ++ [Paramiko.exec_command command timeout])%list
    /\ snd sent
       = match Paramiko.exec_result before command timeout with
         | inl e => inl e
         | inr files =>
             match SSHConnection.read_decode (Paramiko.stdout_read files) with
             | inl e => inl e
             | inr output =>
                 match SSHConnection.read_decode (Paramiko.stderr_read files) with
                 | inl e => inl e
                 | inr error =>
                     inr {| SSHConnection.stderr := error;
                            SSHConnection.stdout := output |}
                 end
             end
         end.
Proof.
  cbn zeta. unfold SSHConnection.execute_command.
  destruct (SSHConnection._is_connected self) eqn:Hc; cbn [negb].
  - intros _. cbn. now exists (SSHConnection._client self).
  - unfold SSHConnection._connect.
    destruct (Paramiko.connect_result _ _) as [e|].
    + cbn. rewrite Hc. discriminate.
    + intros _. cbn. eexists. split; reflexivity.
Qed.

(** C7.  [run_code] hands the assembled command to the transport's
    [execute_command] together with the caller's timeout, and returns the
    transport's captured output as [output] and its captured error text as
    [error], both always there, with nothing added, cut or inspected.  Seen
    from the client: its last call is [exec_command] with that command
    and that timeout, and what its two streams decode to is what is
    returned; streams without a byte give two empty texts. *)
Theorem run_code_delegates (self : Sandbox.t) (code : string)
    (timeout : option Py.number) (environment : option Sandbox.environ)
    (opts : Sandbox.limits) :
  let command := Sandbox.command self code environment opts in
  let sent :=
    SSHConnection.execute_command command timeout (Sandbox.remote_connection self) in
  let ran := Sandbox.run_code self code timeout environment opts in
  ran = (Sandbox.set_remote_connection (fst sent) self,
         match snd sent with
         | inl e => inl e
         | inr response =>
             inr {| Sandbox.output := SSHConnection.stdout response;
                    Sandbox.error := SSHConnection.stderr response |}
         end)
  /\ (SSHConnection._is_connected (fst sent) = true ->
      exists before,
        SSHConnection._client (Sandbox.remote_connection (fst ran))
        = (before ++ [Paramiko.exec_command command timeout])%list
        /\ (forall raw_out raw_err out err,
              Paramiko.exec_result before command timeout
              = inr {| Paramiko.stdout_read := inr raw_out;
                       Paramiko.stderr_read := inr raw_err |} ->
              Paramiko.decode raw_out = inr out ->
              Paramiko.decode raw_err = inr err ->
              snd ran = inr {| Sandbox.output := out; Sandbox.error := err |})
        /\ (Paramiko.decode [] = inr "" ->
            Paramiko.exec_result before command timeout
            = inr {| Paramiko.stdout_read := inr [];
                     Paramiko.stderr_read := inr [] |} ->
            snd ran = inr {| Sandbox.output := ""; Sandbox.error := "" |})).
Proof.
  cbn zeta. unfold Sandbox.run_code.
  destruct (SSHConnection.execute_command _ timeout _) as [conn result] eqn:Hsent.
  cbn [fst snd]. split; [reflexivity|].
  intros Hup.
  pose proof (execute_command_last (Sandbox.command self code environment opts)
                timeout (Sandbox.remote_connection self)) as Hlast.
  cbn zeta in Hlast. rewrite Hsent in Hlast. cbn [fst snd] in Hlast.
  destruct (Hlast Hup) as (before & Hhist & Hresult).
  exists before. split; [exact Hhist|]. split.
  - intros raw_out raw_err out err Hexec Hout Herr.
    rewrite Hresult, Hexec. cbn [Paramiko.stdout_read Paramiko.stderr_read
      SSHConnection.read_decode]. rewrite Hout, Herr. reflexivity.
  - intros Hempty Hexec.
    rewrite Hresult, Hexec. cbn [Paramiko.stdout_read Paramiko.stderr_read
      SSHConnection.read_decode]. rewrite Hempty. reflexivity.
Qed.

End OrchestratorFacts.

(* ===================================================================== *)
(** ** The manifest builder                                               *)
(* ===================================================================== *)

Section ManifestFacts.

Lemma rstrip_all (t chars : string) :
  Spec.all_chars (fun c => Py.mem c chars) t = true -> Py.rstrip t chars = "".
Proof.
  induction t as [|c t IH]; [reflexivity|].
  cbn [Spec.all_chars Py.rstrip]. intros Ht.
  apply andb_prop in Ht as [Hc Ht]. now rewrite IH, Hc.
Qed.

(** [rstrip] stops at the last character outside the set. *)
Lemma rstrip_tail (s : string) (c : ascii) (t chars : string) :
  Py.mem c chars = false ->
  Spec.all_chars (fun c => Py.mem c chars) t = true ->
  Py.rstrip (s ++ String c t) chars = s ++ String c "".
Proof.
  intros Hc Ht. induction s as [|x s IH].
  - cbn [append Py.rstrip]. now rewrite rstrip_all, Hc.
  - change (String x s ++ String c t) with (String x (s ++ String c t)).
    cbn [Py.rstrip]. rewrite IH. now destruct s.
Qed.

(** One turn of the loop adds the entry and strips the comma and the
    line break it has just written. *)
Lemma add_dependency_entry (deps : string)
    (d : PyprojectConfig.PyprojectDependency) :
  Py.lstrip deps ("," ++ Py.nl) = deps ->
  PyprojectConfig.add_dependency deps d = deps ++ Spec.dependency_entry d
  /\ Py.lstrip (deps ++ Spec.dependency_entry d) ("," ++ Py.nl)
     = deps ++ Spec.dependency_entry d.
Proof.
  intros Hdeps.
  assert (Hl : forall rest,
            Py.lstrip (deps ++ "    " ++ rest) ("," ++ Py.nl) = deps ++ "    " ++ rest).
  { intros rest. destruct deps as [|x deps]; [reflexivity|].
    set (chars := "," ++ Py.nl) in *.
    change (String x deps ++ "    " ++ rest) with (String x (deps ++ "    " ++ rest)).
    cbn [Py.lstrip] in *.
    destruct (Py.mem x chars) eqn:Hx; [|reflexivity].
    exfalso. clear -Hdeps.
    assert (Hlen : forall s, String.length (Py.lstrip s chars) <= String.length s).
    { induction s as [|y s IH]; [reflexivity|]. cbn [Py.lstrip].
      destruct (Py.mem y chars); cbn [String.length]; lia. }
    specialize (Hlen deps). rewrite Hdeps in Hlen. cbn [String.length] in Hlen. lia. }
  unfold PyprojectConfig.add_dependency, Spec.dependency_entry, Py.strip.
  split.
  - rewrite Hl.
    replace (deps ++ "    " ++ Py.dq ++ PyprojectConfig.name d ++
             PyprojectConfig.version_constraints d ++ Py.dq ++ "," ++ Py.nl)
      with ((deps ++ "    " ++ Py.dq ++ PyprojectConfig.name d ++
             PyprojectConfig.version_constraints d) ++ String "034" ("," ++ Py.nl))
      by (now rewrite !append_assoc).
    rewrite rstrip_tail by reflexivity. now rewrite !append_assoc.
  - apply Hl.
Qed.

(** The dependency entries as [to_str] accumulates them. *)
Lemma to_str_dependencies (ds : list PyprojectConfig.PyprojectDependency) (deps : string) :
  Py.lstrip deps ("," ++ Py.nl) = deps ->
  fold_left PyprojectConfig.add_dependency ds deps
  = deps ++ String.concat "" (map Spec.dependency_entry ds).
Proof.
  revert deps. induction ds as [|d ds IH]; intros deps Hdeps.
  - cbn. now rewrite append_empty_r.
  - cbn [fold_left map].
    destruct (add_dependency_entry deps d Hdeps) as [-> Hnext].
    rewrite IH by exact Hnext. rewrite append_assoc. f_equal.
    destruct ds as [|d' ds]; cbn [map String.concat]; [now rewrite append_empty_r|].
    reflexivity.
Qed.

(** X14.  What [to_str] renders.  The manifest has the project section with the
    title, the two placeholders and the half-open version range, and one
    entry per dependency, the name directly followed by the constraint;
    but the entries follow one another with nothing between them: the
    comma written after each entry is stripped in the same turn of the
    loop. *)
Theorem to_str_runs_entries_together (self : PyprojectConfig.t) :
  PyprojectConfig.to_str self
  = Py.nl ++
    "[project]" ++ Py.nl ++
    "name = " ++ Py.dq ++ PyprojectConfig.title self ++ Py.dq ++ Py.nl ++
    "version = " ++ Py.dq ++ "0.1.0" ++ Py.dq ++ Py.nl ++
    "description = " ++ Py.dq ++ "Add your description here" ++ Py.dq ++ Py.nl ++
    "requires-python = " ++ Py.dq ++ ">=" ++ PyprojectConfig.python_min_version self ++
      ",<" ++ PyprojectConfig.python_max_version self ++ Py.dq ++ Py.nl ++
    "dependencies = [" ++ Py.nl ++
    "    " ++ String.concat ""
               (map Spec.dependency_entry (PyprojectConfig.dependencies self)) ++ Py.nl ++
    "]" ++ Py.nl.
Proof.
  unfold PyprojectConfig.to_str. now rewrite to_str_dependencies.
Qed.

End ManifestFacts.

(* ===================================================================== *)
(** ** Concrete runs                                                      *)
(* ===================================================================== *)

Section Runs.
#[local] Existing Instance Tenths.Float.

(** The package's own test of the options: the export segment and the
    five flags of the first call, the defaults and no export in the
    second. *)
Example test_sandbox_run_code_options :
  let first :=
    Sandbox.command Demo.sandbox "print('hello world!')"
      (Some Demo.test_environment) Demo.test_limits in
  let second :=
    Sandbox.command Demo.sandbox "print('hello world!')" None Sandbox.no_limits in
  Py.contains "export OPENAI_API_KEY='test-key' && export PYTHONBUFFERED='1'" first = true
  /\ Py.contains
       "docker run --pids-limit 10 --cpus 1.5 -m 100m --device-read-bps=/dev/sda:1mb --device-write-bps=/dev/sda:2mb"
       first = true
  /\ Py.contains "export" second = false
  /\ Py.contains
       "docker run --pids-limit 100 --cpus 1 -m 512m --device-read-bps=/dev/sda:10mb --device-write-bps=/dev/sda:10mb"
       second = true.
Proof. vm_compute. repeat split. Qed.

(** The quoted argument of a call whose code holds single quotes. *)
Lemma run_code_escapes_single_quotes_run :
  exists argument,
    Sandbox.command Demo.sandbox "print('hello world!')" None Sandbox.no_limits
    = Spec.flags Sandbox.no_limits ++ argument
    /\ Shell.word Shell.Unquoted argument
       = Shell.Word (Spec.script "sandbox-1" "" "[project]" "print('hello world!')") "".
Proof.
  destruct (run_code_escapes_single_quotes Demo.sandbox "print('hello world!')"
              None Sandbox.no_limits) as (_ & _ & _ & _ & _ & Hword).
  exact (Hword eq_refl eq_refl).
Defined.

Lemma omitted_limits_take_defaults_run :
  Py.contains "--pids-limit 100 "
    (Sandbox.command Demo.sandbox "print(1)" None Sandbox.no_limits) = true
  /\ Py.contains " -m 512m "
       (Sandbox.command Demo.sandbox "print(1)" None Sandbox.no_limits) = true.
Proof.
  destruct (omitted_limits_take_defaults Demo.sandbox "print(1)" None Sandbox.no_limits)
    as (_ & Hpids & _ & Hmem & _).
  split; [exact (proj2 (Hpids eq_refl)) | exact (proj2 (Hmem eq_refl))].
Defined.

(** C5, the claim as stated fails: a supplied memory limit of zero does
    not reach the command, which carries the default instead. *)
Lemma zero_memory_is_not_verbatim :
  ~ (forall (self : Sandbox.t) (code : string) (environment : option Sandbox.environ)
            (opts : Sandbox.limits) (m : Z),
       Sandbox.memory opts = Some m ->
       Py.contains (" -m " ++ Py.str_int m ++ "m ")
         (Sandbox.command self code environment opts) = true).
Proof.
  intros Hclaim.
  specialize (Hclaim Demo.sandbox "print(1)" None
                {| Sandbox.cpus := None; Sandbox.memory := Some 0%Z;
                   Sandbox.processes := None; Sandbox.read_rate := None;
                   Sandbox.write_rate := None |} 0%Z eq_refl).
  vm_compute in Hclaim. discriminate.
Qed.

Lemma supplied_limits_stand_verbatim_run :
  Sandbox.processes_limit Demo.test_limits = 10%Z
  /\ Sandbox.cpu_limit Demo.test_limits = Py.Flt (15 : Z)
  /\ Sandbox.read_rate_limit Demo.test_limits = "1mb".
Proof.
  destruct (supplied_limits_stand_verbatim Demo.sandbox "print(1)" None Demo.test_limits)
    as (_ & Hpids & Hcpus & _ & Hread & _).
  split; [exact (Hpids 10%Z eq_refl)|].
  split; [exact (Hcpus (Py.Flt (15 : Z)) eq_refl) | exact (Hread "1mb" eq_refl)].
Defined.

(** C6, the claim as stated fails: without environment the command still
    contains the word [export] when the code does. *)
Lemma export_without_environment :
  ~ (forall (self : Sandbox.t) (code : string) (opts : Sandbox.limits),
       Py.contains "export" (Sandbox.command self code None opts) = false).
Proof.
  intros Hclaim.
  specialize (Hclaim Demo.sandbox "print('export')" Sandbox.no_limits).
  vm_compute in Hclaim. discriminate.
Qed.

Lemma environment_exports_run :
  Py.contains "export OPENAI_API_KEY='test-key' && export PYTHONBUFFERED='1'"
    (Sandbox.command Demo.sandbox "print(1)" (Some Demo.test_environment)
       Sandbox.no_limits) = true
  /\ Py.contains "export"
       (Sandbox.command Demo.sandbox "print(1)" None Sandbox.no_limits) = false.
Proof.
  destruct (environment_exports Demo.sandbox "print(1)" (Some Demo.test_environment)
              Sandbox.no_limits) as [Hsome _].
  destruct (environment_exports Demo.sandbox "print(1)" None Sandbox.no_limits)
    as [_ Hnone].
  split.
  - exact (proj2 (proj2 (Hsome _ _ eq_refl))).
  - exact (eq_trans (proj2 (Hnone eq_refl)) eq_refl).
Defined.

(** A transport built from a password, used for two commands on a host
    that accepts the connection. *)
Lemma session_established_once_run :
  let final :=
    fst (@SSHConnection.execute_all _ Demo.friendly
           [("uname", None); ("uptime", Some (Py.Int 5))] Demo.conn) in
  SSHConnection._client final
  = [ Paramiko.set_missing_host_key_policy;
      Paramiko.connect (SSHConnection.connect_kwargs Demo.conn);
      Paramiko.exec_command "uname" None;
      Paramiko.exec_command "uptime" (Some (Py.Int 5)) ]
  /\ @SSHConnection.established _ Demo.friendly [] (SSHConnection._client final) = 1%nat.
Proof.
  destruct (@session_established_once _ Demo.friendly "0.0.0.0" 22%Z "test"
              (Some "test") None None Demo.conn
              [("uname", None); ("uptime", Some (Py.Int 5))] eq_refl)
    as (_ & _ & Hfirst & _).
  destruct (Hfirst ltac:(discriminate) eq_refl) as (Hhistory & _ & Hone).
  split; [exact Hhistory | exact Hone].
Defined.

(** On a host that refuses the first connection, the second call connects:
    still one session. *)
Example flaky_host_one_session :
  let final :=
    fst (@SSHConnection.execute_all _ Demo.flaky
           [("uname", None); ("uptime", None); ("id", None)] Demo.conn) in
  map SSHConnection.is_connect (SSHConnection._client final)
  = [false; true; false; true; false; false]
  /\ @SSHConnection.established _ Demo.flaky [] (SSHConnection._client final) = 1%nat.
Proof. vm_compute. split; reflexivity. Qed.

Lemma init_manifest_source_run :
  @Sandbox.init _ Demo.disk "sandbox-1" Demo.conn None
    (Some "testfiles/custom.pyproject.toml")
  = ([Sandbox.Exists "testfiles/custom.pyproject.toml";
      Sandbox.IsFile "testfiles/custom.pyproject.toml";
      Sandbox.OpenRead "testfiles/custom.pyproject.toml"],
     inr Demo.sandbox)
  /\ exists calls msg,
       @Sandbox.init _ Demo.disk "sandbox-1" Demo.conn None (Some "non-existing.toml")
       = (calls, inl (Py.ValueError msg)).
Proof.
  destruct (@init_manifest_source _ Demo.disk "sandbox-1" Demo.conn)
    as (_ & _ & Hbad & _ & Hgood & _).
  split.
  - exact (Hgood "testfiles/custom.pyproject.toml" "[project]" eq_refl eq_refl eq_refl).
  - destruct (Hbad "non-existing.toml" (or_introl eq_refl)) as (calls & msg & Hinit & _).
    exists calls, msg. exact Hinit.
Defined.

Lemma run_code_delegates_run :
  snd (@Sandbox.run_code _ Demo.friendly Demo.sandbox "print('hello world!')"
         (Some (Py.Int 30)) None Sandbox.no_limits)
  = inr {| Sandbox.output := "hello world!"; Sandbox.error := "" |}.
Proof.
  destruct (@run_code_delegates _ Demo.friendly Demo.sandbox "print('hello world!')"
              (Some (Py.Int 30)) None Sandbox.no_limits) as [_ Hsent].
  destruct (Hsent eq_refl) as (before & Hhistory & Hmap & _).
  exact (Hmap (list_byte_of_string "hello world!") [] "hello world!" ""
           eq_refl eq_refl eq_refl).
Defined.

(** The package's test of the factory: a password transport and the
    manifest read from the path. *)
Example test_sandbox_from_connection_args :
  @Sandbox.from_connection_args _ Demo.disk "sandbox-1" "0.0.0.0" 22%Z "test"
    (Some "test") None None None (Some "testfiles/custom.pyproject.toml")
  = ([Sandbox.Exists "testfiles/custom.pyproject.toml";
      Sandbox.IsFile "testfiles/custom.pyproject.toml";
      Sandbox.OpenRead "testfiles/custom.pyproject.toml"],
     inr Demo.sandbox)
  /\ snd (@Sandbox.from_connection_args _ Demo.disk "sandbox-1" "0.0.0.0" 22%Z "test"
            None None None None (Some "testfiles/custom.pyproject.toml"))
     = inl (Py.ValueError "You must provide one of password and passphrase").
Proof. split; reflexivity. Qed.

(** C9, the failing input: with two dependencies the array holds the two
    entries with blanks between them and no comma. *)
Example to_str_two_dependencies :
  let manifest :=
    PyprojectConfig.to_str
      (PyprojectConfig.make
         [ {| PyprojectConfig.name := "typing-extensions";
              PyprojectConfig.version_constraints := "<5" |};
           {| PyprojectConfig.name := "requests";
              PyprojectConfig.version_constraints := ">=2" |} ]) in
  manifest
  = Py.nl ++ "[project]" ++ Py.nl ++
    "name = " ++ Py.dq ++ "my-project" ++ Py.dq ++ Py.nl ++
    "version = " ++ Py.dq ++ "0.1.0" ++ Py.dq ++ Py.nl ++
    "description = " ++ Py.dq ++ "Add your description here" ++ Py.dq ++ Py.nl ++
    "requires-python = " ++ Py.dq ++ ">=3.13,<4" ++ Py.dq ++ Py.nl ++
    "dependencies = [" ++ Py.nl ++
    "        " ++ Py.dq ++ "typing-extensions<5" ++ Py.dq ++
    "    " ++ Py.dq ++ "requests>=2" ++ Py.dq ++ Py.nl ++
    "]" ++ Py.nl
  /\ Py.contains (Py.dq ++ ",") manifest = false.
Proof. vm_compute. split; reflexivity. Qed.

(** With one dependency, as in the package's test, the array is well
    formed. *)
Example to_str_one_dependency :
  PyprojectConfig.to_str
    {| PyprojectConfig.dependencies :=
         [ {| PyprojectConfig.name := "typing-extensions";
              PyprojectConfig.version_constraints := "<5" |} ];
       PyprojectConfig.title := "test-project";
       PyprojectConfig.python_min_version := "3.13";
       PyprojectConfig.python_max_version := "4" |}
  = Py.nl ++ "[project]" ++ Py.nl ++
    "name = " ++ Py.dq ++ "test-project" ++ Py.dq ++ Py.nl ++
    "version = " ++ Py.dq ++ "0.1.0" ++ Py.dq ++ Py.nl ++
    "description = " ++ Py.dq ++ "Add your description here" ++ Py.dq ++ Py.nl ++
    "requires-python = " ++ Py.dq ++ ">=3.13,<4" ++ Py.dq ++ Py.nl ++
    "dependencies = [" ++ Py.nl ++
    "        " ++ Py.dq ++ "typing-extensions<5" ++ Py.dq ++ Py.nl ++
    "]" ++ Py.nl.
Proof. reflexivity. Qed.

End Runs.

(* ===================================================================== *)
(** ** More on the assembled command                                      *)
(* ===================================================================== *)

Section EscapingFacts.

Lemma length_append (a b : string) :
  String.length (a ++ b) = (String.length a + String.length b)%nat.
Proof. induction a as [|x a IH]; simpl; [reflexivity | now rewrite IH]. Qed.

Lemma escape_length (s : string) :
  String.length (Spec.escape s)
  = (String.length s + 3 * Cover.occurrences "'" s)%nat.
Proof.
  unfold Spec.escape. induction s as [|c s IH]; [reflexivity|].
  cbn [Spec.substitute Cover.occurrences]. rewrite length_append, IH.
  destruct (Ascii.eqb c "'"); cbn [String.length]; lia.
Qed.

Lemma occurrences_none (c : ascii) (s : string) :
  Cover.occurrences c s = 0%nat <-> Py.mem c s = false.
Proof.
  induction s as [|d s IH]; [now split|].
  cbn [Cover.occurrences Py.mem]. rewrite (Ascii.eqb_sym c d).
  destruct (Ascii.eqb d c); cbn [orb].
  - split; [lia | discriminate].
  - exact IH.
Qed.

Lemma escape_quote_free (s : string) :
  Py.mem "'" s = false -> Spec.escape s = s.
Proof.
  unfold Spec.escape. induction s as [|c s IH]; [reflexivity|].
  cbn [Py.mem Spec.substitute]. intros Hs.
  apply orb_false_elim in Hs as [Hc Hs].
  rewrite Ascii.eqb_sym, Hc, IH by assumption. reflexivity.
Qed.

End EscapingFacts.

Section MoreCommandFacts.
Context `{Py.Float}.

(** X1.  The escaping of [run_code] lengthens a text by three characters
    for each single quote in it, so it leaves a text unchanged exactly when
    the text holds no single quote; the manifest and the code of such a
    call stand in the command as they were given. *)
Theorem escaping_adds_three_per_quote (self : Sandbox.t) (code : string)
    (environment : option Sandbox.environ) (opts : Sandbox.limits) :
  (forall s,
     String.length (Py.replace s "'" "'\''")
     = (String.length s + 3 * Cover.occurrences "'" s)%nat)
  /\ (forall s, Py.replace s "'" "'\''" = s <-> Py.mem "'" s = false)
  /\ (Py.mem "'" (Sandbox.pyproject self) = false ->
      Py.mem "'" code = false ->
      Sandbox.command self code environment opts
      = Spec.flags opts ++ "'" ++
        Spec.script (Sandbox.name self) (Spec.exports_line environment)
          (Sandbox.pyproject self) code ++ "'").
Proof.
  split; [|split].
  - intros s. rewrite replace_quote. apply escape_length.
  - intros s. rewrite replace_quote. split.
    + intros Hsame. apply occurrences_none.
      pose proof (escape_length s) as Hlen. rewrite Hsame in Hlen. lia.
    + apply escape_quote_free.
  - intros Hp Hc. rewrite command_shape, !escape_quote_free by assumption.
    reflexivity.
Qed.

Lemma concat_app (sep : string) (a b : list string) :
  a <> [] -> b <> [] ->
  String.concat sep (a ++ b) = String.concat sep a ++ sep ++ String.concat sep b.
Proof.
  intros Ha Hb. induction a as [|x a IH]; [contradiction|].
  destruct a as [|y a].
  - destruct b as [|z b]; [contradiction|]. reflexivity.
  - change ((x :: y :: a) ++ b)%list with (x :: (y :: a) ++ b)%list.
    change (String.concat sep (x :: (y :: a) ++ b)%list)
      with (x ++ sep ++ String.concat sep ((y :: a) ++ b)%list).
    rewrite IH by discriminate.
    change (String.concat sep (x :: y :: a))
      with (x ++ sep ++ String.concat sep (y :: a)).
    now rewrite !append_assoc.
Qed.

(** X2.  The export segment of two non-empty mappings put one after the
    other is the segment of the first, the connective, and the segment of
    the second: the entries keep their order and nothing else is added. *)
Theorem get_env_exports_concatenates (first second : Sandbox.environ) :
  first <> [] -> second <> [] ->
  Sandbox._get_env_exports (first ++ second)%list
  = Sandbox._get_env_exports first ++ " && " ++ Sandbox._get_env_exports second.
Proof.
  intros Hf Hs.
  unfold Sandbox._get_env_exports, Py.join. rewrite map_app.
  apply concat_app.
  - destruct first; [contradiction | discriminate].
  - destruct second; [contradiction | discriminate].
Qed.

(** X3.  The limits that reach the command are never zero and never
    empty, and writing them out in the call changes nothing: a call with
    every limit given as resolved assembles the same command. *)
Theorem limits_never_zero (self : Sandbox.t) (code : string)
    (environment : option Sandbox.environ) (opts : Sandbox.limits) :
  Sandbox.processes_limit opts <> 0%Z
  /\ Sandbox.memory_limit opts <> 0%Z
  /\ Py.bool_of_number (Sandbox.cpu_limit opts) = true
  /\ Sandbox.read_rate_limit opts <> ""
  /\ Sandbox.write_rate_limit opts <> ""
  /\ Sandbox.command self code environment (Cover.resolved opts)
     = Sandbox.command self code environment opts.
Proof.
  assert (Hp : Sandbox.processes_limit opts <> 0%Z).
  { unfold Sandbox.processes_limit, Py.or_default, Py.bool_of_int.
    destruct (Sandbox.processes opts) as [n|]; [|discriminate].
    destruct (Z.eqb_spec n 0); cbn [negb]; [discriminate | assumption]. }
  assert (Hm : Sandbox.memory_limit opts <> 0%Z).
  { unfold Sandbox.memory_limit, Py.or_default, Py.bool_of_int.
    destruct (Sandbox.memory opts) as [n|]; [|discriminate].
    destruct (Z.eqb_spec n 0); cbn [negb]; [discriminate | assumption]. }
  assert (Hc : Py.bool_of_number (Sandbox.cpu_limit opts) = true).
  { unfold Sandbox.cpu_limit, Py.or_default.
    destruct (Sandbox.cpus opts) as [x|]; [|reflexivity].
    destruct (Py.bool_of_number x) eqn:Hx; [assumption | reflexivity]. }
  assert (Hr : Sandbox.read_rate_limit opts <> "").
  { unfold Sandbox.read_rate_limit, Py.or_default.
    destruct (Sandbox.read_rate opts) as [[|c r]|]; discriminate. }
  assert (Hw : Sandbox.write_rate_limit opts <> "").
  { unfold Sandbox.write_rate_limit, Py.or_default.
    destruct (Sandbox.write_rate opts) as [[|c r]|]; discriminate. }
  repeat (split; [assumption|]).
  rewrite !command_shape. f_equal.
  unfold Spec.flags. f_equal.
  - f_equal. unfold Sandbox.processes_limit at 1. cbn [Cover.resolved Sandbox.processes
      Py.or_default]. unfold Py.bool_of_int.
    destruct (Z.eqb_spec (Sandbox.processes_limit opts) 0); [contradiction|reflexivity].
  - f_equal. unfold Sandbox.cpu_limit at 1. cbn [Cover.resolved Sandbox.cpus
      Py.or_default]. now rewrite Hc.
  - f_equal. unfold Sandbox.memory_limit at 1. cbn [Cover.resolved Sandbox.memory
      Py.or_default]. unfold Py.bool_of_int.
    destruct (Z.eqb_spec (Sandbox.memory_limit opts) 0); [contradiction|reflexivity].
  - unfold Sandbox.read_rate_limit at 1. cbn [Cover.resolved Sandbox.read_rate
      Py.or_default]. now destruct (Sandbox.read_rate_limit opts).
  - unfold Sandbox.write_rate_limit at 1. cbn [Cover.resolved Sandbox.write_rate
      Py.or_default]. now destruct (Sandbox.write_rate_limit opts).
Qed.

(** X4.  The stand-in of the package's test assembles, for every code,
    environment and set of options, the very command [run_code] assembles
    for a sandbox named [hello] whose manifest is the text [hello], and
    returns it as output with an empty error text. *)
Theorem mock_run_code_agrees (conn : SSHConnection.t) (code : string)
    (timeout : option Py.number) (environment : option Sandbox.environ)
    (opts : Sandbox.limits) :
  TestSandbox.mock_run_code code timeout environment opts
  = {| Sandbox.output :=
         Sandbox.command
           {| Sandbox.pyproject := "hello"; Sandbox.name := "hello";
              Sandbox.remote_connection := conn |} code environment opts;
       Sandbox.error := "" |}.
Proof.
  unfold TestSandbox.mock_run_code, Sandbox.command. f_equal.
Qed.

End MoreCommandFacts.

(* ===================================================================== *)
(** ** More on the constructors                                           *)
(* ===================================================================== *)

Section ConstructorFacts.
Context `{Py.Float} `{!Paramiko.Remote} `{Sandbox.FileSystem}.

Lemma ssh_init_succeeds_iff (host : string) (port : Z) (username : string)
    (password passphrase key_file : option string) :
  (exists conn,
     SSHConnection.init host port username password passphrase key_file = inr conn)
  <-> (password <> None \/ (passphrase <> None /\ key_file <> None)).
Proof.
  unfold SSHConnection.init. split.
  - intros [conn Hinit].
    destruct password, passphrase, key_file; try discriminate;
      (left; discriminate) || (right; split; discriminate).
  - intros [Hpw | [Hph Hkey]].
    + destruct password; [|contradiction].
      destruct passphrase, key_file; eexists; reflexivity.
    + destruct passphrase; [|contradiction]. destruct key_file; [|contradiction].
      destruct password; eexists; reflexivity.
Qed.

Lemma sandbox_init_succeeds_iff (name : string) (conn : SSHConnection.t)
    (config : option PyprojectConfig.t) (path : option string) :
  (exists calls sandbox, Sandbox.init name conn config path = (calls, inr sandbox))
  <-> ((config <> None /\ path = None)
       \/ (config = None
           /\ exists p content,
                path = Some p
                /\ Sandbox.path_exists p = true
                /\ Sandbox.path_is_file p = true
                /\ Sandbox.read_text p = inr content)).
Proof.
  unfold Sandbox.init. split.
  - intros (calls & sandbox & Hinit).
    destruct config as [config|], path as [p|]; try discriminate.
    + left. split; [discriminate | reflexivity].
    + right. split; [reflexivity|].
      destruct (Sandbox.path_exists p) eqn:He; cbn [negb] in Hinit; [|discriminate].
      destruct (Sandbox.path_is_file p) eqn:Hf; cbn [negb] in Hinit; [|discriminate].
      destruct (Sandbox.read_text p) as [e|content] eqn:Hr; [discriminate|].
      now exists p, content.
  - intros [[Hc ->] | [-> (p & content & -> & He & Hf & Hr)]].
    + destruct config; [|contradiction]. do 2 eexists. reflexivity.
    + rewrite He, Hf, Hr. cbn [negb]. do 2 eexists. reflexivity.
Qed.

Lemma sandbox_init_connection (name : string) (conn : SSHConnection.t)
    (config : option PyprojectConfig.t) (path : option string)
    (calls : list Sandbox.fs_call) (sandbox : Sandbox.t) :
  Sandbox.init name conn config path = (calls, inr sandbox) ->
  Sandbox.remote_connection sandbox = conn /\ Sandbox.name sandbox = name.
Proof.
  unfold Sandbox.init.
  destruct config as [config|], path as [p|]; try discriminate.
  - intros [= _ <-]. split; reflexivity.
  - destruct (Sandbox.path_exists p); cbn [negb]; [|discriminate].
    destruct (Sandbox.path_is_file p); cbn [negb]; [|discriminate].
    destruct (Sandbox.read_text p); [discriminate|].
    intros [= _ <-]. split; reflexivity.
Qed.

(** A sandbox built by the factory holds the transport the transport's
    constructor built from the connection arguments. *)
Lemma factory_connection (name host : string) (port : Z) (username : string)
    (password passphrase key_file : option string)
    (config : option PyprojectConfig.t) (path : option string)
    (calls : list Sandbox.fs_call) (sandbox : Sandbox.t) :
  Sandbox.from_connection_args name host port username password passphrase
    key_file config path = (calls, inr sandbox) ->
  SSHConnection.init host port username password passphrase key_file
  = inr (Sandbox.remote_connection sandbox)
  /\ Sandbox.init name (Sandbox.remote_connection sandbox) config path
     = (calls, inr sandbox).
Proof.
  unfold Sandbox.from_connection_args.
  destruct (SSHConnection.init host port username password passphrase key_file)
    as [e|conn]; [discriminate|].
  intros Hinit. destruct (sandbox_init_connection _ _ _ _ _ _ Hinit) as [-> _].
  split; [reflexivity | exact Hinit].
Qed.

(** X5.  The factory builds a sandbox exactly when the credentials are
    acceptable (a password, or a passphrase with its key file) and the
    manifest source is (a manifest object alone, or alone a path to an
    existing, regular, readable file).  Unacceptable credentials are
    reported first, before the file system is consulted at all; and the
    transport of a sandbox that was built is new: unconnected, with a
    client never used, for the host, port and user given. *)
Theorem factory_succeeds_iff (name host : string) (port : Z) (username : string)
    (password passphrase key_file : option string)
    (config : option PyprojectConfig.t) (path : option string) :
  let built :=
    Sandbox.from_connection_args name host port username password passphrase
      key_file config path in
  ((exists calls sandbox, built = (calls, inr sandbox))
   <-> ((password <> None \/ (passphrase <> None /\ key_file <> None))
        /\ ((config <> None /\ path = None)
            \/ (config = None
                /\ exists p content,
                     path = Some p
                     /\ Sandbox.path_exists p = true
                     /\ Sandbox.path_is_file p = true
                     /\ Sandbox.read_text p = inr content))))
  /\ (forall e,
        SSHConnection.init host port username password passphrase key_file = inl e ->
        built = ([], inl e))
  /\ (forall calls sandbox,
        built = (calls, inr sandbox) ->
        let conn := Sandbox.remote_connection sandbox in
        Sandbox.name sandbox = name
        /\ SSHConnection._is_connected conn = false
        /\ SSHConnection._client conn = []
        /\ SSHConnection.host conn = host
        /\ SSHConnection.port conn = port
        /\ SSHConnection.username conn = username).
Proof.
  cbn zeta. split; [|split].
  - rewrite <- (ssh_init_succeeds_iff host port username).
    unfold Sandbox.from_connection_args. split.
    + intros (calls & sandbox & Hbuilt).
      destruct (SSHConnection.init host port username password passphrase key_file)
        as [e|conn]; [discriminate|].
      split; [now exists conn|].
      apply (sandbox_init_succeeds_iff name conn). now exists calls, sandbox.
    + intros [[conn ->] Hsource].
      now apply (sandbox_init_succeeds_iff name conn).
  - intros e He. unfold Sandbox.from_connection_args. now rewrite He.
  - intros calls sandbox Hbuilt.
    destruct (factory_connection _ _ _ _ _ _ _ _ _ _ _ Hbuilt) as [Hconn Hinit].
    destruct (sandbox_init_connection _ _ _ _ _ _ Hinit) as [_ Hname].
    split; [exact Hname|].
    destruct (init_fresh _ _ _ _ _ _ _ Hconn) as [Hc Hclient].
    split; [exact Hc|]. split; [exact Hclient|].
    unfold SSHConnection.init in Hconn.
    destruct password, passphrase, key_file; inversion Hconn as [Heq];
      repeat split; reflexivity.
Qed.


End ConstructorFacts.

(* ===================================================================== *)
(** ** More on the transport                                              *)
(* ===================================================================== *)

Section MoreTransportFacts.
Context `{Py.Float} `{!Paramiko.Remote}.

Lemma same_endpoint_refl (a : SSHConnection.t) : Cover.same_endpoint a a.
Proof. repeat split. Qed.

Lemma same_endpoint_trans (a b c : SSHConnection.t) :
  Cover.same_endpoint a b -> Cover.same_endpoint b c -> Cover.same_endpoint a c.
Proof.
  unfold Cover.same_endpoint.
  intros (? & ? & ? & ? & ? & ?) (? & ? & ? & ? & ? & ?).
  repeat split; etransitivity; eassumption.
Qed.

Lemma same_endpoint_kwargs (a b : SSHConnection.t) :
  Cover.same_endpoint a b ->
  SSHConnection.connect_kwargs b = SSHConnection.connect_kwargs a.
Proof.
  unfold Cover.same_endpoint, SSHConnection.connect_kwargs.
  intros (-> & -> & -> & -> & -> & ->). reflexivity.
Qed.

(** One call leaves the endpoint and the credentials alone, only adds
    to the client's history, and connects with the transport's own
    keyword arguments. *)
Lemma execute_command_frame (command : string) (timeout : option Py.number)
    (self : SSHConnection.t) :
  let after := fst (SSHConnection.execute_command command timeout self) in
  Cover.same_endpoint self after
  /\ exists added,
       SSHConnection._client after = (SSHConnection._client self ++ added)%list
       /\ Forall (Cover.connects_with (SSHConnection.connect_kwargs self)) added.
Proof.
  cbn zeta. unfold SSHConnection.execute_command, SSHConnection._connect.
  destruct (SSHConnection._is_connected self); cbn [negb].
  - cbn. split; [repeat split|].
    eexists. split; [reflexivity|]. repeat constructor.
  - change (SSHConnection.connect_kwargs
              (SSHConnection.call_client Paramiko.set_missing_host_key_policy self))
      with (SSHConnection.connect_kwargs self).
    destruct (Paramiko.connect_result _ _) as [e|]; cbn.
    + split; [repeat split|].
      exists [Paramiko.set_missing_host_key_policy;
              Paramiko.connect (SSHConnection.connect_kwargs self)].
      split; [now rewrite <- app_assoc|]. repeat constructor.
    + split; [repeat split|].
      exists [Paramiko.set_missing_host_key_policy;
              Paramiko.connect (SSHConnection.connect_kwargs self);
              Paramiko.exec_command command timeout].
      split; [now rewrite <- !app_assoc|]. repeat constructor.
Qed.

(** X7.  Whatever the calls made on a transport and whatever the network
    answers, the host, the port, the user, the secret, the key file and
    the authentication mode stay as they were; the client's history only
    grows; and every [connect] in it carries the keyword arguments of the
    mode chosen at construction. *)
Theorem endpoint_is_immutable (calls : list (string * option Py.number))
    (self : SSHConnection.t) :
  let final := fst (SSHConnection.execute_all calls self) in
  Cover.same_endpoint self final
  /\ SSHConnection.connect_kwargs final = SSHConnection.connect_kwargs self
  /\ exists added,
       SSHConnection._client final = (SSHConnection._client self ++ added)%list
       /\ Forall (Cover.connects_with (SSHConnection.connect_kwargs self)) added.
Proof.
  cbn zeta. revert self. induction calls as [|[command timeout] calls IH]; intros self.
  - cbn. split; [apply same_endpoint_refl|]. split; [reflexivity|].
    exists []. split; [now rewrite app_nil_r | constructor].
  - cbn [SSHConnection.execute_all].
    pose proof (execute_command_frame command timeout self) as Hstep.
    cbn zeta in Hstep.
    destruct (SSHConnection.execute_command command timeout self) as [self1 r].
    cbn [fst] in Hstep. destruct Hstep as (Hsame1 & added1 & Hhist1 & Hall1).
    specialize (IH self1).
    destruct (SSHConnection.execute_all calls self1) as [self2 rs].
    cbn [fst] in *. destruct IH as (Hsame2 & Hkw2 & added2 & Hhist2 & Hall2).
    pose proof (same_endpoint_kwargs _ _ Hsame1) as Hkw1.
    split; [eapply same_endpoint_trans; eassumption|].
    split; [congruence|].
    exists (added1 ++ added2)%list. split.
    + now rewrite Hhist2, Hhist1, app_assoc.
    + apply Forall_app. split; [assumption|]. now rewrite <- Hkw1.
Qed.

Lemma execs_after_session_app (past h1 h2 : Paramiko.SSHClient) :
  Cover.execs_after_session past (h1 ++ h2)%list
  <-> Cover.execs_after_session past h1
      /\ Cover.execs_after_session (past ++ h1)%list h2.
Proof.
  revert past. induction h1 as [|c h1 IH]; intros past.
  - cbn. rewrite app_nil_r. tauto.
  - cbn [app Cover.execs_after_session]. rewrite IH, <- app_assoc. cbn [app]. tauto.
Qed.

Lemma execute_command_session (command : string) (timeout : option Py.number)
    (self : SSHConnection.t) :
  SSHConnection.established [] (SSHConnection._client self)
  = (if SSHConnection._is_connected self then 1 else 0)%nat ->
  Cover.execs_after_session [] (SSHConnection._client self) ->
  Cover.execs_after_session []
    (SSHConnection._client (fst (SSHConnection.execute_command command timeout self))).
Proof.
  intros Hinv Hexecs.
  destruct (SSHConnection._is_connected self) eqn:Hc.
  - rewrite execute_command_connected by assumption.
    cbn [SSHConnection.call_client SSHConnection._client].
    apply execs_after_session_app. split; [assumption|].
    cbn. split; [exact Hinv | exact I].
  - pose proof (execute_command_unconnected command timeout self Hc) as Hstep.
    cbn zeta in Hstep.
    destruct (Paramiko.connect_result _ _) as [e|] eqn:Hres.
    + destruct Hstep as (-> & _ & _).
      rewrite <- app_assoc. apply execs_after_session_app.
      split; [assumption|]. cbn. tauto.
    + destruct Hstep as (-> & _).
      rewrite <- app_assoc. apply execs_after_session_app.
      split; [assumption|]. cbn [app Cover.execs_after_session].
      split; [exact I|]. split; [exact I|]. split; [|exact I].
      rewrite <- !app_assoc. cbn [app].
      rewrite established_app, Hinv. cbn [SSHConnection.established app].
      now rewrite Hres.
Qed.

Lemma execute_all_session (calls : list (string * option Py.number))
    (self : SSHConnection.t) :
  SSHConnection.established [] (SSHConnection._client self)
  = (if SSHConnection._is_connected self then 1 else 0)%nat ->
  Cover.execs_after_session [] (SSHConnection._client self) ->
  Cover.execs_after_session []
    (SSHConnection._client (fst (SSHConnection.execute_all calls self))).
Proof.
  revert self. induction calls as [|[command timeout] calls IH]; intros self Hinv Hexecs.
  - exact Hexecs.
  - cbn [SSHConnection.execute_all].
    pose proof (execute_command_established command timeout self Hinv) as Hinv1.
    pose proof (execute_command_session command timeout self Hinv Hexecs) as Hexecs1.
    cbn zeta in Hinv1.
    destruct (SSHConnection.execute_command command timeout self) as [self1 r].
    cbn [fst] in *. specialize (IH self1 Hinv1 Hexecs1).
    destruct (SSHConnection.execute_all calls self1) as [self2 rs].
    exact IH.
Qed.

(** X8.  No command is ever sent over a session that was not
    established: on a transport built by the constructor, whatever the
    calls and whatever the network answers, every [exec_command] in the
    client's history is preceded by the one [connect] that succeeded. *)
Theorem no_command_before_session (host : string) (port : Z) (username : string)
    (password passphrase key_file : option string) (conn : SSHConnection.t)
    (calls : list (string * option Py.number)) :
  SSHConnection.init host port username password passphrase key_file = inr conn ->
  forall before command timeout after,
    SSHConnection._client (fst (SSHConnection.execute_all calls conn))
    = (before ++ Paramiko.exec_command command timeout :: after)%list ->
    SSHConnection.established [] before = 1%nat.
Proof.
  intros Hinit before command timeout after Hsplit.
  destruct (init_fresh _ _ _ _ _ _ _ Hinit) as [Hc Hclient].
  assert (Hexecs : Cover.execs_after_session []
            (SSHConnection._client (fst (SSHConnection.execute_all calls conn)))).
  { apply execute_all_session; rewrite Hclient; [now rewrite Hc | exact I]. }
  rewrite Hsplit in Hexecs. apply execs_after_session_app in Hexecs as [_ Hexecs].
  cbn in Hexecs. tauto.
Qed.

End MoreTransportFacts.

(* ===================================================================== *)
(** ** More on the orchestrator                                           *)
(* ===================================================================== *)

Section MoreOrchestratorFacts.
Context `{Py.Float} `{!Paramiko.Remote} `{Sandbox.FileSystem}.

(** A call that returns a response leaves the transport connected. *)
Lemma execute_command_returns_connected (command : string)
    (timeout : option Py.number) (self : SSHConnection.t)
    (response : SSHConnection.ExecCommandResponse) :
  snd (SSHConnection.execute_command command timeout self) = inr response ->
  SSHConnection._is_connected (fst (SSHConnection.execute_command command timeout self))
  = true.
Proof.
  unfold SSHConnection.execute_command, SSHConnection._connect.
  destruct (SSHConnection._is_connected self) eqn:Hc; cbn [negb].
  - intros _. cbn. exact Hc.
  - destruct (Paramiko.connect_result _ _) as [e|]; cbn; [discriminate | reflexivity].
Qed.

(** X9.  [run_code] returns a result only when everything went through:
    the transport is then connected, the last call of its client is the
    [exec_command] of this call's command and timeout, both streams were
    read to the end, and the two fields of the result are what the streams
    decode to.  The manifest text and the name of the sandbox are the same
    after the call. *)
Theorem run_code_returns_only_complete (self after : Sandbox.t) (code : string)
    (timeout : option Py.number) (environment : option Sandbox.environ)
    (opts : Sandbox.limits) (result : Sandbox.CodeOutput) :
  Sandbox.run_code self code timeout environment opts = (after, inr result) ->
  let command := Sandbox.command self code environment opts in
  Sandbox.pyproject after = Sandbox.pyproject self
  /\ Sandbox.name after = Sandbox.name self
  /\ SSHConnection._is_connected (Sandbox.remote_connection after) = true
  /\ exists before files raw_out raw_err,
       SSHConnection._client (Sandbox.remote_connection after)
       = (before ++ [Paramiko.exec_command command timeout])%list
       /\ Paramiko.exec_result before command timeout = inr files
       /\ Paramiko.stdout_read files = inr raw_out
       /\ Paramiko.decode raw_out = inr (Sandbox.output result)
       /\ Paramiko.stderr_read files = inr raw_err
       /\ Paramiko.decode raw_err = inr (Sandbox.error result).
Proof.
  unfold Sandbox.run_code. intros Hran. cbn zeta.
  pose proof (execute_command_returns_connected
                (Sandbox.command self code environment opts) timeout
                (Sandbox.remote_connection self)) as Hup.
  pose proof (execute_command_last (Sandbox.command self code environment opts)
                timeout (Sandbox.remote_connection self)) as Hlast.
  cbn zeta in Hlast.
  destruct (SSHConnection.execute_command _ timeout _) as [conn response].
  cbn [fst snd] in *.
  destruct response as [e|response]; [discriminate|].
  injection Hran as <- <-.
  specialize (Hup response eq_refl).
  destruct (Hlast Hup) as (before & Hhist & Hresult).
  cbn [Sandbox.set_remote_connection Sandbox.pyproject Sandbox.name
       Sandbox.remote_connection Sandbox.output Sandbox.error].
  repeat (split; [reflexivity || assumption|]).
  exists before.
  destruct (Paramiko.exec_result before _ timeout) as [e|files]; [discriminate|].
  exists files. unfold SSHConnection.read_decode in Hresult.
  destruct (Paramiko.stdout_read files) as [e|raw_out]; [discriminate|].
  destruct (Paramiko.decode raw_out) as [e|out] eqn:Hout; [discriminate|].
  destruct (Paramiko.stderr_read files) as [e|raw_err]; [discriminate|].
  destruct (Paramiko.decode raw_err) as [e|err] eqn:Herr; [discriminate|].
  injection Hresult as ->.
  exists raw_out, raw_err. cbn [SSHConnection.stdout SSHConnection.stderr].
  repeat split; assumption.
Qed.

(** X10.  Two [run_code] calls in a row on a sandbox built by the factory
    share one session when the first connection attempt succeeds: the
    client sees the host-key policy, one [connect], and then the two
    commands with their timeouts, in the order of the calls. *)
Theorem run_code_twice_one_session (name host : string) (port : Z) (username : string)
    (password passphrase key_file : option string)
    (config : option PyprojectConfig.t) (path : option string)
    (calls : list Sandbox.fs_call) (sandbox : Sandbox.t)
    (code1 code2 : string) (timeout1 timeout2 : option Py.number)
    (environment1 environment2 : option Sandbox.environ)
    (opts1 opts2 : Sandbox.limits) :
  Sandbox.from_connection_args name host port username password passphrase
    key_file config path = (calls, inr sandbox) ->
  let kwargs := SSHConnection.connect_kwargs (Sandbox.remote_connection sandbox) in
  Paramiko.connect_result [Paramiko.set_missing_host_key_policy] kwargs = None ->
  let first := Sandbox.run_code sandbox code1 timeout1 environment1 opts1 in
  let second := Sandbox.run_code (fst first) code2 timeout2 environment2 opts2 in
  SSHConnection._client (Sandbox.remote_connection (fst second))
  = [ Paramiko.set_missing_host_key_policy;
      Paramiko.connect kwargs;
      Paramiko.exec_command (Sandbox.command sandbox code1 environment1 opts1) timeout1;
      Paramiko.exec_command (Sandbox.command sandbox code2 environment2 opts2) timeout2 ].
Proof.
  intros Hbuilt kwargs Hok. cbn zeta.
  destruct (factory_connection _ _ _ _ _ _ _ _ _ _ _ Hbuilt) as [Hconn _].
  destruct (init_fresh _ _ _ _ _ _ _ Hconn) as [Hc Hclient].
  unfold Sandbox.run_code.
  pose proof (execute_command_unconnected
                (Sandbox.command sandbox code1 environment1 opts1) timeout1
                (Sandbox.remote_connection sandbox) Hc) as Hstep.
  cbn zeta in Hstep. rewrite Hclient in Hstep. cbn [app] in Hstep.
  fold kwargs in Hstep. rewrite Hok in Hstep.
  destruct (SSHConnection.execute_command _ timeout1 _) as [conn1 r1].
  cbn [fst] in *. destruct Hstep as [Hhist1 Hup1].
  change (Sandbox.command (Sandbox.set_remote_connection conn1 sandbox)
            code2 environment2 opts2)
    with (Sandbox.command sandbox code2 environment2 opts2).
  cbn [Sandbox.set_remote_connection Sandbox.remote_connection].
  pose proof (execute_command_connected
                (Sandbox.command sandbox code2 environment2 opts2) timeout2
                conn1 Hup1) as Hstep2.
  destruct (SSHConnection.execute_command _ timeout2 conn1) as [conn2 r2].
  cbn [fst Sandbox.remote_connection] in *. subst conn2.
  cbn [Sandbox.set_remote_connection Sandbox.remote_connection
       SSHConnection.call_client SSHConnection._client].
  now rewrite Hhist1.
Qed.

End MoreOrchestratorFacts.

(* ===================================================================== *)
(** ** More on what the remote shells read                                *)
(* ===================================================================== *)

Section MoreShellFacts.
Context `{Py.Float}.











End MoreShellFacts.

Section HeredocFacts.







End HeredocFacts.

Section ScriptFacts.
Context `{Py.Float}.


End ScriptFacts.

(* ===================================================================== *)
(** ** More concrete runs                                                 *)
(* ===================================================================== *)

Section MoreRuns.
#[local] Existing Instance Tenths.Float.

Lemma get_env_exports_concatenates_run :
  Sandbox._get_env_exports Demo.test_environment
  = Sandbox._get_env_exports [("OPENAI_API_KEY", Py.VStr "test-key")] ++ " && " ++
    Sandbox._get_env_exports [("PYTHONBUFFERED", Py.VStr "1")].
Proof.
  exact (get_env_exports_concatenates
           [("OPENAI_API_KEY", Py.VStr "test-key")] [("PYTHONBUFFERED", Py.VStr "1")]
           ltac:(discriminate) ltac:(discriminate)).
Defined.


(** On the host that refuses the first connection, the command of the
    second call goes out after the connection that succeeded. *)
Lemma no_command_before_session_run :
  @SSHConnection.established _ Demo.flaky []
    [ Paramiko.set_missing_host_key_policy;
      Paramiko.connect (SSHConnection.connect_kwargs Demo.conn);
      Paramiko.set_missing_host_key_policy;
      Paramiko.connect (SSHConnection.connect_kwargs Demo.conn) ] = 1%nat.
Proof.
  exact (@no_command_before_session _ Demo.flaky "0.0.0.0" 22%Z "test"
           (Some "test") None None Demo.conn [("uname", None); ("uptime", None)]
           eq_refl _ "uptime" None [] eq_refl).
Defined.

Lemma run_code_returns_only_complete_run :
  SSHConnection._is_connected
    (Sandbox.remote_connection
       (fst (@Sandbox.run_code _ Demo.friendly Demo.sandbox "print(1)" None None
               Sandbox.no_limits))) = true.
Proof.
  destruct (@run_code_returns_only_complete _ Demo.friendly Demo.sandbox
              (fst (@Sandbox.run_code _ Demo.friendly Demo.sandbox "print(1)" None None
                      Sandbox.no_limits))
              "print(1)" None None Sandbox.no_limits
              {| Sandbox.output := "hello world!"; Sandbox.error := "" |} eq_refl)
    as (_ & _ & Hup & _).
  exact Hup.
Defined.

Lemma run_code_twice_one_session_run :
  let first :=
    @Sandbox.run_code _ Demo.friendly Demo.sandbox "print(1)" None None
      Sandbox.no_limits in
  let second :=
    @Sandbox.run_code _ Demo.friendly (fst first) "print(2)" (Some (Py.Int 5)) None
      Sandbox.no_limits in
  SSHConnection._client (Sandbox.remote_connection (fst second))
  = [ Paramiko.set_missing_host_key_policy;
      Paramiko.connect (SSHConnection.connect_kwargs Demo.conn);
      Paramiko.exec_command
        (Sandbox.command Demo.sandbox "print(1)" None Sandbox.no_limits) None;
      Paramiko.exec_command
        (Sandbox.command Demo.sandbox "print(2)" None Sandbox.no_limits)
        (Some (Py.Int 5)) ].
Proof.
  exact (@run_code_twice_one_session _ Demo.friendly Demo.disk
           "sandbox-1" "0.0.0.0" 22%Z "test" (Some "test") None None None
           (Some "testfiles/custom.pyproject.toml") _ Demo.sandbox
           "print(1)" "print(2)" None (Some (Py.Int 5)) None None
           Sandbox.no_limits Sandbox.no_limits eq_refl eq_refl).
Defined.




(** A code with a line [EOF]: the script file gets the first line only,
    and the second is left in the script as a command. *)
Example code_with_marker_line_is_cut :
  Heredoc.body "EOF" true
    (("print(1)" ++ Py.nl ++ "EOF" ++ Py.nl ++ "touch /tmp/x") ++ Py.nl ++
     "EOF" ++ Py.nl ++ "cd /tmp/sandbox-1/ && uv run script.py" ++ Py.nl)
  = Some ("print(1)" ++ Py.nl,
          "touch /tmp/x" ++ Py.nl ++ "EOF" ++ Py.nl ++
          "cd /tmp/sandbox-1/ && uv run script.py" ++ Py.nl).
Proof. reflexivity. Qed.

End MoreRuns.
